(** * The Kanboard service of bugwarrior

    A shallow embedding of [bugwarrior/services/kanboard.py]: the mapping of
    a Kanboard card to a taskwarrior record ([KanboardIssue]) and the
    traversal of boards, lists, cards and subtasks ([KanboardService]). *)

From stdpp Require Import base option list strings gmap.
From Stdlib Require Import ZArith Ascii String.

Local Open Scope string_scope.
Local Open Scope list_scope.
#[local] Set Warnings "-register-all".

(** ** Python values

    The records handled by the service are decoded JSON documents: [None],
    booleans, integers, text, arrays and objects keyed by text.  [VDate] is
    the [datetime] that date parsing produces. *)

Inductive value : Type :=
| VNone
| VBool (b : bool)
| VInt (n : Z)
| VStr (s : string)
| VDate (t : Z)
| VList (l : list value)
| VDict (d : gmap string value).

(** Exceptions that the embedded code can raise. *)
Inductive exn : Type :=
| KeyError (key : string)
| TypeError
| AttributeError
| SystemExit (message : string)
| TemplateError (message : string)
| RemoteError (message : string).

Inductive result (A : Type) : Type :=
| Ok (a : A)
| Err (e : exn).
Arguments Ok {A} a.
Arguments Err {A} e.

#[global] Instance result_ret : MRet result := fun A a => Ok a.
#[global] Instance result_bind : MBind result := fun A B f r =>
  match r with
  | Ok a => f a
  | Err e => Err e
  end.
#[global] Instance result_fmap : FMap result := fun A B f r =>
  match r with
  | Ok a => Ok (f a)
  | Err e => Err e
  end.

(** [mapR f l] evaluates [f] on the elements of [l] from left to right and
    stops at the first exception, as a list comprehension does. *)
Fixpoint mapR {A B : Type} (f : A -> result B) (l : list A) : result (list B) :=
  match l with
  | [] => Ok []
  | x :: l' => y ← f x; ys ← mapR f l'; Ok (y :: ys)
  end.

(** [filterR p l] is the comprehension [[x for x in l if p x]]. *)
Fixpoint filterR {A : Type} (p : A -> result bool) (l : list A) : result (list A) :=
  match l with
  | [] => Ok []
  | x :: l' => b ← p x; ys ← filterR p l'; Ok (if b : bool then x :: ys else ys)
  end.

(** Subscription [v[key]] with a text key: a lookup in a dict, [KeyError]
    when the key is missing, [TypeError] on a value that is not a dict. *)
Definition getitem (v : value) (key : string) : result value :=
  match v with
  | VDict d =>
      match d !! key with
      | Some x => Ok x
      | None => Err (KeyError key)
      end
  | _ => Err TypeError
  end.

(** [d[key]] and [d.get(key, default)] on a dict built by the code itself. *)
Definition dict_getitem (d : gmap string value) (key : string) : result value :=
  match d !! key with
  | Some x => Ok x
  | None => Err (KeyError key)
  end.

Definition dict_get (d : gmap string value) (key : string) (default : value) : value :=
  match d !! key with
  | Some x => x
  | None => default
  end.

(** Truth value of a Python object. *)
Definition truthy (v : value) : bool :=
  match v with
  | VNone => false
  | VBool b => b
  | VInt n => negb (n =? 0)%Z
  | VStr s => negb (String.eqb s EmptyString)
  | VDate _ => true
  | VList l => match l with [] => false | _ => true end
  | VDict d => negb (bool_decide (d = ∅))
  end.

(** [iter v]: the items a [for] loop over [v] visits.  A dict is visited by
    its keys and text by its characters. *)
Fixpoint chars (s : string) : list value :=
  match s with
  | EmptyString => []
  | String c s' => VStr (String c EmptyString) :: chars s'
  end.

Definition iter (v : value) : result (list value) :=
  match v with
  | VList l => Ok l
  | VDict d => Ok (VStr <$> (map_to_list d).*1)
  | VStr s => Ok (chars s)
  | _ => Err TypeError
  end.

(** [v in l] for a list [l] of text: equality with one of its elements. *)
Definition value_in (v : value) (l : list string) : bool :=
  match v with
  | VStr s => bool_decide (s ∈ l)
  | _ => false
  end.

(** ** Text operations *)

(** [s.startswith(p)] is [String.prefix p s]. *)
Definition startswith (s p : string) : bool := String.prefix p s.

Fixpoint drop_string (n : nat) (s : string) : string :=
  match n, s with
  | S n', String _ s' => drop_string n' s'
  | _, _ => s
  end.

(** [s.replace(old, new)]: every occurrence of [old], found from left to
    right without overlap, becomes [new]; an empty [old] matches before each
    character and at the end. *)
Fixpoint replace_from (skip : nat) (old new s : string) : string :=
  match s with
  | EmptyString => EmptyString
  | String c s' =>
      match skip with
      | S k => replace_from k old new s'
      | O =>
          if String.prefix old s
          then new ++ replace_from (String.length old - 1) old new s'
          else String c (replace_from 0 old new s')
      end
  end.

Fixpoint replace_empty (new s : string) : string :=
  match s with
  | EmptyString => new
  | String c s' => new ++ String c (replace_empty new s')
  end.

Definition str_replace (old new s : string) : string :=
  match old with
  | EmptyString => replace_empty new s
  | _ => replace_from 0 old new s
  end.

(** ** Label templates

    [get_tags] renders a Jinja2 template.  The engine is a library outside
    the repository; the part of its language that the default template uses
    is interpreted here: literal text and outputs [{{ name }}] of a context
    variable, each with any number of [|replace('old', 'new')] filters.  A
    template outside that part is handed to the engine, [jinja2_Template],
    which the development takes as given. *)

Inductive jfilter : Type :=
| FReplace (old new : string).

Inductive jnode : Type :=
| JText (text : string)
| JOutput (name : string) (filters : list jfilter).

Definition is_space (c : ascii) : bool := Ascii.eqb c " ".

Definition is_digit (c : ascii) : bool :=
  let n := nat_of_ascii c in (48 <=? n)%nat && (n <=? 57)%nat.

Definition is_ident_start (c : ascii) : bool :=
  let n := nat_of_ascii c in
  ((65 <=? n)%nat && (n <=? 90)%nat) || ((97 <=? n)%nat && (n <=? 122)%nat)
  || (n =? 95)%nat.

Definition is_ident_char (c : ascii) : bool := is_ident_start c || is_digit c.

(** Literal text of the interpreted part: no brace and no line break. *)
Definition is_text_char (c : ascii) : bool :=
  let n := nat_of_ascii c in
  negb ((n =? 123)%nat || (n =? 125)%nat || (n =? 10)%nat || (n =? 13)%nat).

(** Names that the engine does not look up in the context: its keywords and
    the functions it defines in every template. *)
Definition reserved_names : list string :=
  ["true"; "false"; "none"; "True"; "False"; "None"; "and"; "or"; "not";
   "in"; "is"; "if"; "else"; "range"; "dict"; "lipsum"; "cycler"; "joiner";
   "namespace"; "self"; "loop"; "super"; "varargs"; "kwargs"; "caller"].

Fixpoint skip_spaces (s : string) : string :=
  match s with
  | String c s' => if is_space c then skip_spaces s' else s
  | EmptyString => s
  end.

Fixpoint span (p : ascii -> bool) (s : string) : string * string :=
  match s with
  | String c s' =>
      if p c then let '(a, b) := span p s' in (String c a, b) else (EmptyString, s)
  | EmptyString => (EmptyString, EmptyString)
  end.

Definition expect (tok s : string) : option string :=
  if String.prefix tok s then Some (drop_string (String.length tok) s) else None.

(** A quoted literal without escapes. *)
Definition read_literal (s : string) : option (string * string) :=
  match s with
  | String q s' =>
      if (nat_of_ascii q =? 39)%nat || (nat_of_ascii q =? 34)%nat then
        let '(body, rest) :=
          span (fun c => negb (Ascii.eqb c q || (nat_of_ascii c =? 92)%nat
                               || (nat_of_ascii c =? 10)%nat
                               || (nat_of_ascii c =? 13)%nat)) s' in
        match rest with
        | String q' rest' => if Ascii.eqb q' q then Some (body, rest') else None
        | EmptyString => None
        end
      else None
  | EmptyString => None
  end.

Definition valid_name (name : string) : bool :=
  match name with
  | String c _ => is_ident_start c && negb (bool_decide (name ∈ reserved_names))
  | EmptyString => false
  end.

(** The filters of an output up to and including its closing braces. *)
Fixpoint parse_filters (fuel : nat) (s : string) : option (list jfilter * string) :=
  match fuel with
  | O => None
  | S fuel' =>
      let s := skip_spaces s in
      match expect "}}" s with
      | Some rest => Some ([], rest)
      | None =>
          s1 ← expect "|" s;
          s2 ← expect "replace" (skip_spaces s1);
          s3 ← expect "(" (skip_spaces s2);
          '(old, s4) ← read_literal (skip_spaces s3);
          s5 ← expect "," (skip_spaces s4);
          '(new, s6) ← read_literal (skip_spaces s5);
          s7 ← expect ")" (skip_spaces s6);
          '(fs, rest) ← parse_filters fuel' s7;
          Some (FReplace old new :: fs, rest)
      end
  end.

Fixpoint parse_nodes (fuel : nat) (s : string) : option (list jnode) :=
  match fuel with
  | O => None
  | S fuel' =>
      match s with
      | EmptyString => Some []
      | _ =>
          match expect "{{" s with
          | Some s1 =>
              let '(name, s2) := span is_ident_char (skip_spaces s1) in
              if valid_name name then
                '(fs, rest) ← parse_filters fuel' s2;
                nodes ← parse_nodes fuel' rest;
                Some (JOutput name fs :: nodes)
              else None
          | None =>
              let '(text, rest) := span is_text_char s in
              match text with
              | EmptyString => None
              | _ => nodes ← parse_nodes fuel' rest; Some (JText text :: nodes)
              end
          end
      end
  end.

Definition parse_template (source : string) : option (list jnode) :=
  parse_nodes (S (String.length source)) source.

Definition apply_filter (s : string) (f : jfilter) : string :=
  match f with
  | FReplace old new => str_replace old new s
  end.

(** A template once constructed: the function its [render] method applies
    to a context. *)
Definition template : Type := gmap string value -> result string.

(** ** The issue class *)

Definition DEFAULT_LABEL_TEMPLATE : string := "{{label|replace(' ', '_')}}".

Definition NAME : string := "kanboardcard".
Definition CARDID : string := "kanboardcardid".
Definition BOARD : string := "kanboardboard".
Definition LIST : string := "kanboardlist".
Definition SHORTLINK : string := "kanboardshortlink".
Definition SHORTURL : string := "kanboardshorturl".
Definition URL : string := "kanboardurl".

Definition UNIQUE_KEY : list string := [CARDID].

(** An issue holds the remote record, the options of the service that
    produced it ([origin]) and what the traversal adds ([extra]). *)
Record KanboardIssue : Type := Issue {
  record : value;
  origin : gmap string value;
  extra : gmap string value
}.

(** ** The service: state and effects *)

(** The client object [Kanboard(url, user, token)] of the client library. *)
Record Kanboard : Type := Client {
  client_url : string;
  client_user : string;
  client_token : option string
}.

(** The remote procedures that the service calls, with their keyword
    arguments. *)
Inductive request : Type :=
| get_project_by_id (project_id : value)
| get_all_projects
| get_columns (project_id : value)
| get_all_tasks (project_id : value) (status_id : Z)
| get_all_comments (task_id : value)
| get_all_subtasks (task_id : value).

(** The service object owns the connection.  [calls] records the requests
    sent so far and [yielded] the issues that the consumer of [issues] has
    received so far, both oldest first. *)
Record state : Type := State {
  KANBOARD_CONNECTION : option Kanboard;
  calls : list (Kanboard * request);
  yielded : list KanboardIssue
}.

Definition initial : state := State None [] [].

Definition set_connection (c : Kanboard) (st : state) : state :=
  State (Some c) (calls st) (yielded st).

Definition log_call (c : Kanboard) (r : request) (st : state) : state :=
  State (KANBOARD_CONNECTION st) (calls st ++ [(c, r)]) (yielded st).

Definition push (issue : KanboardIssue) (st : state) : state :=
  State (KANBOARD_CONNECTION st) (calls st) (yielded st ++ [issue]).

(** A method of the service: it may change the state and it returns or
    raises.  The state survives an exception. *)
Definition M (A : Type) : Type := state -> result A * state.

#[global] Instance M_ret : MRet M := fun A a st => (Ok a, st).
#[global] Instance M_bind : MBind M := fun A B f m st =>
  match m st with
  | (Ok a, st') => f a st'
  | (Err e, st') => (Err e, st')
  end.

Definition lift {A : Type} (r : result A) : M A := fun st => (r, st).

(** A generator, seen from the [for] loop that consumes it: the loop hands
    over its body and the value it carries from one round to the next, and
    the generator runs the body at each [yield]. *)
Definition gen (A : Type) : Type := forall B : Type, (A -> B -> M B) -> B -> M B.

(** [for x in l: body] over a list. *)
Fixpoint for_list {A B : Type} (l : list A) (body : A -> B -> M B) (b : B) : M B :=
  match l with
  | [] => mret b
  | x :: l' => b' ← body x b; for_list l' body b'
  end.

(** [list(g)]: the items of a generator, in the order it yields them. *)
Definition collect {A : Type} (g : gen A) : M (list A) :=
  g (list A) (fun x acc => mret (acc ++ [x])) [].

(** The loop of the host application over [issues()]: it receives the
    issues one at a time and keeps what it received when the generator
    raises. *)
Definition receive (issue : KanboardIssue) (_ : unit) : M unit :=
  fun st => (Ok tt, push issue st).

Definition consume (g : gen KanboardIssue) : M unit := g unit receive tt.

Section Kanboard.

(** What the standard library and Jinja2 contribute: [str] of a value that
    is not text, the parser of date text, and the template engine. *)
Variable py_str : value -> string.
Variable parse_datetime : string -> option Z.
Variable jinja2_Template : value -> result template.

Definition text_of (v : value) : string :=
  match v with
  | VStr s => s
  | _ => py_str v
  end.

(** An output prints its variable, nothing when the context does not bind
    it, and passes the text through its filters from left to right. *)
Definition render_node (context : gmap string value) (n : jnode) : string :=
  match n with
  | JText text => text
  | JOutput name filters =>
      fold_left apply_filter filters
        (match context !! name with
         | Some v => text_of v
         | None => EmptyString
         end)
  end.

Definition render_nodes (nodes : list jnode) (context : gmap string value) : string :=
  fold_right (fun n acc => String.append (render_node context n) acc) EmptyString nodes.

(** [Template(source)]. *)
Definition Template (source : value) : result template :=
  match source with
  | VStr s =>
      match parse_template s with
      | Some nodes => Ok (fun context => Ok (render_nodes nodes context))
      | None => jinja2_Template source
      end
  | _ => jinja2_Template source
  end.

(** Modelled from the spec: [Issue.parse_date] of the host application,
    which is not part of this module.  A due date that is absent ([None])
    or that does not parse gives no date, never an error. *)
Definition parse_date (date : value) : value :=
  match date with
  | VStr s =>
      match parse_datetime s with
      | Some t => VDate t
      | None => VNone
      end
  | _ => VNone
  end.

(** [render(twdict, label=...)]: the keyword is added to the context. *)
Definition get_tags (self : KanboardIssue) (twdict : gmap string value)
  : result (list value) :=
  tmpl ← Template (dict_get (origin self) "label_template" (VStr DEFAULT_LABEL_TEMPLATE));
  labels ← getitem (record self) "labels";
  labels ← iter labels;
  mapR (fun label =>
          name ← getitem label "name";
          tag ← tmpl (<["label" := name]> twdict);
          Ok (VStr tag))
       labels.

Definition to_taskwarrior (self : KanboardIssue) : result (gmap string value) :=
  project ← dict_getitem (extra self) "boardname";
  due ← getitem (record self) "due";
  name ← getitem (record self) "name";
  cardid ← getitem (record self) "id";
  board ← dict_getitem (extra self) "boardname";
  lst ← dict_getitem (extra self) "listname";
  shortlink ← getitem (record self) "shortLink";
  shorturl ← getitem (record self) "shortUrl";
  url ← getitem (record self) "url";
  let twdict : gmap string value :=
    <["annotations" := dict_get (extra self) "annotations" (VList [])]>
    (<[URL := url]>
    (<[SHORTURL := shorturl]>
    (<[SHORTLINK := shortlink]>
    (<[LIST := lst]>
    (<[BOARD := board]>
    (<[CARDID := cardid]>
    (<[NAME := name]>
    (<["due" := parse_date due]>
    (<["priority" := VStr "M"]>
    (<["project" := project]> ∅)))))))))) in
  flag ← dict_getitem (origin self) "import_labels_as_tags";
  if truthy flag then
    tags ← get_tags self twdict;
    Ok (<["tags" := VList tags]> twdict)
  else Ok twdict.

(** ** The service *)

(** Modelled from the spec: the configuration object of the host
    application, a key/value store of the options written for this
    service; [config.get(key, default, to_type)] gives the default when
    the option is not set and converts the text otherwise.  The
    converters [aslist] and [asbool] are the host's. *)
Variable config : gmap string string.
Variable aslist : string -> list string.
Variable asbool : string -> bool.

(** The server, as the client library presents it: what a call evaluates
    to.  For the calls whose response the code reads through [.result],
    this is that attribute. *)
Variable remote : Kanboard -> request -> result value.

(** The host's formatting of one annotation from the author, the text and
    the reference URL. *)
Variable format_annotation : value -> value -> value -> string.

(** [validate_config] of the base class. *)
Variable IssueService_validate_config : gmap string string -> string -> result unit.

(** Modelled from the spec: [die] of the host application ends the run
    with a configuration error. *)
Definition die {A : Type} (message : string) : result A := Err (SystemExit message).

Definition check_key (service_config : gmap string string) (target opt : string)
  : result unit :=
  match service_config !! opt with
  | None => die ("[" ++ target ++ "] has no 'kanboard." ++ opt ++ "'")%string
  | Some _ => Ok tt
  end.

Definition validate_config (service_config : gmap string string) (target : string)
  : result unit :=
  _ ← IssueService_validate_config service_config target;
  check_key service_config target "api_key".

Definition get_service_metadata : gmap string value :=
  <["label_template" :=
      VStr (match config !! "label_template" with
            | Some t => t
            | None => DEFAULT_LABEL_TEMPLATE
            end)]>
  (<["import_labels_as_tags" :=
      VBool (match config !! "import_labels_as_tags" with
             | Some b => asbool b
             | None => false
             end)]> ∅).

(** Modelled from the spec: [get_issue_for_record] and [update_extra] of
    the host's base classes.  An issue is made of the record, the options
    of the service and the extra of its list, and no issue shares state
    with another one.  What the consumer receives is the issue as it is at
    its [yield]: the names of the list and the annotations just attached.
    That is the same if the base class keeps the dict of the list instead
    of a copy, because [update_extra] has then just written the
    annotations of this very record into it. *)
Definition get_issue_for_record (rec : value) (extra : gmap string value)
  : KanboardIssue :=
  Issue rec get_service_metadata extra.

Definition update_extra (issue : KanboardIssue) (more : gmap string value)
  : KanboardIssue :=
  Issue (record issue) (origin issue) (more ∪ extra issue).

(** ** The connection *)

Definition connect : M unit := fun st =>
  match config !! "base_url" with
  | None => (Err AttributeError, st)
  | Some base_url =>
      let url :=
        if negb (startswith base_url "http") then ("https://" ++ base_url)%string
        else base_url in
      match KANBOARD_CONNECTION st with
      | None => (Ok tt, set_connection (Client url "jsonrpc" (config !! "token")) st)
      | Some _ => (Ok tt, st)
      end
  end.

(** A call [self.KANBOARD_CONNECTION.method(...)]. *)
Definition rpc (r : request) : M value := fun st =>
  match KANBOARD_CONNECTION st with
  | Some c => (remote c r, log_call c r st)
  | None => (Err AttributeError, st)
  end.

(** ** The fetch layer *)

Definition get_boards : gen value := fun B body b =>
  _ ← connect;
  match config !! "include_boards" with
  | Some ids =>
      for_list (aslist ids)
        (fun boardid acc =>
           board ← rpc (get_project_by_id (VStr boardid));
           body board acc)
        b
  | None =>
      boards ← rpc get_all_projects;
      boards ← lift (iter boards);
      for_list boards body b
  end.

(** [config.get(key, to_type=aslist)]: the converted text of the option,
    or [None] when it is not set.  The code only tests the truth of the
    answer before it uses it, and [None] is as false as the empty list, so
    an option that is not set is given the empty list here. *)
Definition configured_list (key : string) : list string :=
  match config !! key with
  | Some text => aslist text
  | None => []
  end.

Definition get_lists (board : value) : M value :=
  _ ← connect;
  lists ← rpc (get_columns board);
  let include_lists := configured_list "include_lists" in
  lists ←
    match include_lists with
    | [] => mret lists
    | _ =>
        ls ← lift (iter lists);
        kept ← lift (filterR (fun l => title ← getitem l "title";
                                       Ok (value_in title include_lists)) ls);
        mret (VList kept)
    end;
  let exclude_lists := configured_list "exclude_lists" in
  match exclude_lists with
  | [] => mret lists
  | _ =>
      ls ← lift (iter lists);
      kept ← lift (filterR (fun l => title ← getitem l "title";
                                     Ok (negb (value_in title exclude_lists))) ls);
      mret (VList kept)
  end.

Definition get_cards (list_id : value) : gen value := fun B body b =>
  _ ← connect;
  cards ← rpc (get_all_tasks list_id 1);
  cards ← lift (iter cards);
  for_list cards body b.

Definition get_comments (card_id : value) : gen value := fun B body b =>
  _ ← connect;
  comments ← rpc (get_all_comments card_id);
  comments ← lift (iter comments);
  for_list comments body b.

Definition get_subtasks (card_id : value) : gen value := fun B body b =>
  _ ← connect;
  subtasks ← rpc (get_all_subtasks card_id);
  subtasks ← lift (iter subtasks);
  for_list subtasks body b.

(** ** Annotations *)

(** Modelled from the spec: [build_annotations] of the host's base class
    makes one annotation per (author, text) pair, in order, with the URL
    as its reference. *)
Definition build_annotations (pairs : gen (value * value)) (url : value) : M value :=
  formatted ← pairs (list value)
    (fun p acc => mret (acc ++ [VStr (format_annotation p.1 p.2 url)])) [];
  mret (VList formatted).

(** The generator expression over the comments is consumed inside
    [build_annotations], after the short URL has been read. *)
Definition annotations (card_json : value) : M value :=
  card_id ← lift (getitem card_json "id");
  let comments := get_comments card_id in
  url ← lift (getitem card_json "shortUrl");
  build_annotations
    (fun B body b =>
       comments B
         (fun c acc =>
            username ← lift (member ← getitem c "memberCreator"; getitem member "username");
            text ← lift (data ← getitem c "data"; getitem data "text");
            body (username, text) acc)
         b)
    url.

(** ** The traversal *)

(** One round of the loop over the subtasks of a card, and of the loop
    over the cards of a list: both make the issue, attach the annotations
    of the record and yield. *)
Definition issue_of (rec : value) (listextra : gmap string value) : M KanboardIssue :=
  let issue := get_issue_for_record rec listextra in
  a ← annotations rec;
  mret (update_extra issue {["annotations" := a]}).

Definition issues_card (listextra : gmap string value) (card : value)
  : gen KanboardIssue := fun B yield b =>
  b ← get_subtasks card B
        (fun subtask b => issue ← issue_of subtask listextra; yield issue b) b;
  issue ← issue_of card listextra;
  yield issue b.

Definition issues_list (board lst : value) : gen KanboardIssue := fun B yield b =>
  boardname ← lift (getitem board "name");
  listname ← lift (getitem lst "name");
  let listextra : gmap string value :=
    <["listname" := listname]> (<["boardname" := boardname]> ∅) in
  list_id ← lift (getitem lst "id");
  get_cards list_id B (fun card b => issues_card listextra card B yield b) b.

Definition issues_board (board : value) : gen KanboardIssue := fun B yield b =>
  board_id ← lift (getitem board "id");
  lists ← get_lists board_id;
  lists ← lift (iter lists);
  for_list lists (fun lst b => issues_list board lst B yield b) b.

Definition issues : gen KanboardIssue := fun B yield b =>
  get_boards B (fun board b => issues_board board B yield b) b.

(** ** Notions used in the statements *)

(** A run never forgets a request or an issue, and it keeps the client
    it has and sends its requests through it: the states of a run are
    ordered by [follows]. *)
Definition follows (st st' : state) : Prop :=
  exists new_calls new_issues,
    calls st' = calls st ++ new_calls /\
    yielded st' = yielded st ++ new_issues /\
    forall c, KANBOARD_CONNECTION st = Some c ->
      KANBOARD_CONNECTION st' = Some c /\ Forall (fun p => p.1 = c) new_calls.

Definition monotone {A : Type} (m : M A) : Prop := forall st, follows st (m st).2.

Definition monotone_gen {A : Type} (g : gen A) : Prop :=
  forall (B : Type) (body : A -> B -> M B) (b : B),
    (forall x b', monotone (body x b')) -> monotone (g B body b).

(** The client that [connect] makes for a base URL. *)
Definition client_for (base_url : string) : Kanboard :=
  Client (if startswith base_url "http" then base_url
          else ("https://" ++ base_url)%string)
         "jsonrpc" (config !! "token").

(** A URL has a scheme when it starts with a letter followed by letters,
    digits, [+], [-] or [.] and then [://]. *)
Definition is_letter (c : ascii) : bool :=
  let n := nat_of_ascii c in
  ((65 <=? n)%nat && (n <=? 90)%nat) || ((97 <=? n)%nat && (n <=? 122)%nat).

Definition is_scheme_char (c : ascii) : bool :=
  let n := nat_of_ascii c in
  is_letter c || is_digit c || (n =? 43)%nat || (n =? 45)%nat || (n =? 46)%nat.

Definition has_scheme (url : string) : bool :=
  let '(scheme, rest) := span is_scheme_char url in
  match scheme with
  | String c _ => is_letter c && String.prefix "://" rest
  | EmptyString => false
  end.

(** Normalization by scheme: the first connection of a run is made to the
    configured base URL itself when it has a scheme and to [https://]
    followed by it otherwise. *)
Definition connects_by_scheme : Prop :=
  forall base_url,
    config !! "base_url" = Some base_url ->
    client_url <$> KANBOARD_CONNECTION (connect initial).2 =
      Some (if has_scheme base_url then base_url
            else ("https://" ++ base_url)%string).

(** The author and the text of a comment, as [annotations] reads them. *)
Definition comment_pair (comment : value) : result (value * value) :=
  username ← (member ← getitem comment "memberCreator"; getitem member "username");
  text ← (data ← getitem comment "data"; getitem data "text");
  Ok (username, text).

(** The annotations of a record as [annotations] computes them through
    the client [c]. *)
Definition annotations_at (c : Kanboard) (rec : value) : result value :=
  (annotations rec (State (Some c) [] [])).1.

(** A loop whose body only computes: it folds in [result] and leaves the
    state alone. *)
Fixpoint foldR {A B : Type} (g : A -> B -> result B) (l : list A) (b : B) : result B :=
  match l with
  | [] => Ok b
  | x :: l' => b' ← g x b; foldR g l' b'
  end.

(** The title test of the filters: the column has a title, the title is
    text and that text is one of [titles]. *)
Definition title_in (titles : list string) (lst : value) : bool :=
  match getitem lst "title" with
  | Ok title => value_in title titles
  | Err _ => false
  end.

(** The two filters as the specification words them: keep the columns with
    a title of the include list when there is one, then drop the columns
    with a title of the exclude list when there is one. *)
Definition filter_lists (include_lists exclude_lists : list string)
    (columns : list value) : list value :=
  let kept :=
    match include_lists with
    | [] => columns
    | _ => List.filter (title_in include_lists) columns
    end in
  match exclude_lists with
  | [] => kept
  | _ => List.filter (fun lst => negb (title_in exclude_lists lst)) kept
  end.

(** The fields that [to_taskwarrior] gives to every record, from the
    board and list names of the extra, the fields of the remote record and
    the annotations computed before. *)
Definition mapped_fields (self : KanboardIssue)
    (boardname listname due name cardid shortlink shorturl url : value)
    (tw : gmap string value) : Prop :=
  tw !! "project" = Some boardname /\
  tw !! "priority" = Some (VStr "M") /\
  tw !! "due" = Some (parse_date due) /\
  tw !! NAME = Some name /\
  tw !! CARDID = Some cardid /\
  tw !! BOARD = Some boardname /\
  tw !! LIST = Some listname /\
  tw !! SHORTLINK = Some shortlink /\
  tw !! SHORTURL = Some shorturl /\
  tw !! URL = Some url /\
  tw !! "annotations" = Some (dict_get (extra self) "annotations" (VList [])).

(** ** Sample data

    A small server and configuration on which the definitions can be run:
    the board [Proj] with three lists and one card that has a subtask, a
    label and a comment, and the board [Ops] whose only column is as the
    Kanboard API describes columns, with a title and without a name. *)

Definition sample_dict (items : list (string * value)) : value :=
  VDict (list_to_map items).

Definition sample_card : value :=
  sample_dict
    [("id", VInt 100); ("name", VStr "Fix bug"); ("shortLink", VStr "ab12");
     ("shortUrl", VStr "https://k/ab12"); ("url", VStr "https://k/t/100");
     ("idShort", VInt 5); ("due", VNone);
     ("labels", VList [sample_dict [("name", VStr "In Progress")]])].

Definition sample_subtask : value :=
  sample_dict
    [("id", VInt 101); ("name", VStr "Write test"); ("shortLink", VStr "cd34");
     ("shortUrl", VStr "https://k/cd34"); ("url", VStr "https://k/t/101");
     ("idShort", VInt 6); ("due", VStr "soon"); ("labels", VList [])].

Definition sample_comment : value :=
  sample_dict
    [("memberCreator", sample_dict [("username", VStr "alice")]);
     ("data", sample_dict [("text", VStr "ok")])].

Definition sample_board : value := sample_dict [("id", VInt 1); ("name", VStr "Proj")].
Definition sample_ops : value := sample_dict [("id", VInt 2); ("name", VStr "Ops")].

Definition sample_list (id : Z) (title : string) : value :=
  sample_dict [("id", VInt id); ("title", VStr title); ("name", VStr title)].

Definition sample_column : gmap string value :=
  list_to_map [("id", VInt 20); ("title", VStr "Doing"); ("position", VInt 1)].

Definition sample_remote (c : Kanboard) (r : request) : result value :=
  match r with
  | get_all_projects => Ok (VList [sample_board])
  | get_project_by_id (VStr "1") => Ok sample_board
  | get_project_by_id (VStr "2") => Ok sample_ops
  | get_columns (VInt 1) =>
      Ok (VList [sample_list 9 "Backlog"; sample_list 10 "Doing"; sample_list 11 "Done"])
  | get_columns (VInt 2) => Ok (VList [VDict sample_column])
  | get_all_tasks (VInt 10) 1 => Ok (VList [sample_card])
  | get_all_tasks _ _ => Ok (VList [])
  | get_all_subtasks (VDict _) => Ok (VList [sample_subtask])
  | get_all_comments (VInt 100) => Ok (VList [sample_comment])
  | get_all_comments (VInt 101) => Ok (VList [])
  | _ => Err (RemoteError "not found")
  end.

Definition sample_config : gmap string string :=
  list_to_map [("api_key", "secret"); ("token", "secret"); ("base_url", "k");
               ("import_labels_as_tags", "true");
               ("include_lists", "Doing,Done"); ("exclude_lists", "Done")].

(** A configuration that [validate_config] accepts and that has no token. *)
Definition sample_config_without_token : gmap string string :=
  list_to_map [("api_key", "secret"); ("base_url", "kanboard.example.org")].

Definition sample_client : Kanboard := Client "https://k" "jsonrpc" (Some "secret").

Fixpoint split_on (sep : ascii) (s : string) : list string :=
  match s with
  | EmptyString => [EmptyString]
  | String ch s' =>
      if Ascii.eqb ch sep then EmptyString :: split_on sep s'
      else match split_on sep s' with
           | h :: t => String ch h :: t
           | [] => [String ch EmptyString]
           end
  end.

Definition sample_aslist (text : string) : list string := split_on "," text.

Definition sample_asbool (text : string) : bool :=
  bool_decide (text ∈ ["y"; "yes"; "t"; "true"; "1"; "on"]).

Definition sample_py_str (v : value) : string :=
  match v with
  | VNone => "None"
  | VBool true => "True"
  | VBool false => "False"
  | _ => "?"
  end.

Definition sample_parse_datetime (text : string) : option Z := None.

Definition sample_Template (source : value) : result template :=
  Err (TemplateError "not in the interpreted part").

Definition sample_format (author text url : value) : string :=
  match author, text, url with
  | VStr a, VStr t, VStr u => ("@" ++ a ++ " - " ++ t ++ " (" ++ u ++ ")")%string
  | _, _, _ => "?"
  end.

Definition sample_validate (service_config : gmap string string) (target : string)
  : result unit := Ok tt.

Definition sample_listextra : gmap string value :=
  <["listname" := VStr "Doing"]> (<["boardname" := VStr "Proj"]> ∅).

Definition sample_issue : KanboardIssue :=
  Issue sample_card
    (<["label_template" := VStr DEFAULT_LABEL_TEMPLATE]>
       (<["import_labels_as_tags" := VBool true]> ∅))
    (<["annotations" := VList [VStr "@alice - ok (https://k/ab12)"]]> sample_listextra).

(** ** The rest of the issue class *)

(** [build_default_description] of the host's base class, with its keyword
    arguments [title], [url], [number] and [cls]. *)
Variable build_default_description : value -> value -> value -> string -> string.

Definition get_default_description (self : KanboardIssue) : result string :=
  title ← getitem (record self) "name";
  url ← getitem (record self) "shortUrl";
  number ← getitem (record self) "idShort";
  Ok (build_default_description title url number "task").

(** The declaration of a user-defined attribute: its type and its label. *)
Definition uda (label : string) : gmap string string :=
  <["label" := label]> (<["type" := "string"]> ∅).

Definition UDAS : gmap string (gmap string string) :=
  <[URL := uda "Kanboard URL"]>
  (<[SHORTURL := uda "Kanboard short URL"]>
  (<[SHORTLINK := uda "Kanboard shortlink"]>
  (<[LIST := uda "Kanboard list name"]>
  (<[BOARD := uda "Kanboard board name"]>
  (<[CARDID := uda "Kanboard card ID"]>
  (<[NAME := uda "Kanboard card name"]> ∅)))))).

(** ** Further notions used in the statements *)

(** The record that [to_taskwarrior] builds before it looks at the flag. *)
Definition record_before_tags (boardname listname due name cardid shortlink
    shorturl url annots : value) : gmap string value :=
  <["annotations" := annots]>
  (<[URL := url]>
  (<[SHORTURL := shorturl]>
  (<[SHORTLINK := shortlink]>
  (<[LIST := listname]>
  (<[BOARD := boardname]>
  (<[CARDID := cardid]>
  (<[NAME := name]>
  (<["due" := parse_date due]>
  (<["priority" := VStr "M"]>
  (<["project" := boardname]> ∅)))))))))).

(** The keys of a record that are not user-defined attributes. *)
Definition standard_keys : gset string :=
  {[ "project"; "priority"; "due"; "annotations" ]}.

(** The text has no space. *)
Fixpoint no_space (s : string) : bool :=
  match s with
  | EmptyString => true
  | String ch s' => negb (Ascii.eqb ch " ") && no_space s'
  end.

(** One round of the loop of [get_boards] over the configured ids, as
    [issues] runs it for its consumer. *)
Definition board_round (boardid : string) (b : unit) : M unit :=
  board ← rpc (get_project_by_id (VStr boardid));
  issues_board board unit receive b.

(** ** More sample data *)

(** A card as the Kanboard API describes tasks: a title and no name, no
    short URL. *)
Definition sample_task : gmap string value :=
  list_to_map [("id", VInt 7); ("title", VStr "Fix bug"); ("date_due", VInt 0)].

(** A column without a title. *)
Definition sample_untitled : gmap string value :=
  list_to_map [("id", VInt 13); ("name", VStr "Review")].

Definition sample_broken_comment : value :=
  sample_dict [("data", sample_dict [("text", VStr "no author")])].

Definition sample_remote_broken (c : Kanboard) (r : request) : result value :=
  match r with
  | get_all_subtasks (VDict _) => Ok (VList [sample_subtask; VDict sample_task; sample_subtask])
  | get_all_comments (VInt 100) => Ok (VList [sample_comment; sample_broken_comment])
  | get_columns (VInt 3) =>
      Ok (VList [sample_list 10 "Doing"; VDict sample_untitled; sample_list 11 "Done"])
  | get_columns (VInt 4) =>
      Ok (VList [sample_dict [("id", VInt 12); ("title", VInt 5); ("name", VStr "5")]])
  | get_columns (VInt 5) => Ok (VBool false)
  | _ => sample_remote c r
  end.

Definition sample_config_boards : gmap string string :=
  <["include_boards" := "2,1"]> sample_config.

Definition sample_config_plain : gmap string string :=
  list_to_map [("token", "secret"); ("base_url", "k")].

Definition sample_config_five : gmap string string :=
  list_to_map [("token", "secret"); ("base_url", "k"); ("include_lists", "5")].

Definition sample_description (title url number : value) (cls : string) : string :=
  match title, url with
  | VStr t, VStr u => ("(bw)" ++ cls ++ "# - " ++ t ++ " .. " ++ u)%string
  | _, _ => "?"
  end.

Definition sample_config_no_url : gmap string string :=
  list_to_map [("api_key", "secret"); ("token", "secret")].

(** An issue whose template is outside the interpreted part, and which
    [sample_Template] rejects. *)
Definition sample_issue_bad_template : KanboardIssue :=
  Issue sample_card
    (<["label_template" := VStr "{% if label %}"]>
       (<["import_labels_as_tags" := VBool true]> ∅))
    sample_listextra.

(** ** The records of a whole traversal

    The traversal as the specification words it: for every board, every
    list of that board and every card of that list, first one record per
    subtask of the card, with the annotations of the subtask, and then one
    record for the card.  These definitions compute the records from the
    answers of the server alone, with no state and no generator; the
    traversal of the source is compared with them. *)

(** The issue that the traversal makes of a record: the record with the
    extra of its list and its own annotations. *)
Definition record_with_annotations (c : Kanboard) (listextra : gmap string value)
    (rec : value) : result KanboardIssue :=
  a ← annotations_at c rec;
  Ok (update_extra (get_issue_for_record rec listextra) {["annotations" := a]}).

(** The records of one card: one per subtask, in the order of the
    subtasks, and then the one of the card. *)
Definition card_records (c : Kanboard) (listextra : gmap string value) (card : value)
  : result (list KanboardIssue) :=
  subtasks ← (remote c (get_all_subtasks card) ≫= iter);
  mapR (record_with_annotations c listextra) (subtasks ++ [card]).

(** The records of one list: those of its cards, one card after the other. *)
Definition list_records (c : Kanboard) (board lst : value)
  : result (list KanboardIssue) :=
  boardname ← getitem board "name";
  listname ← getitem lst "name";
  list_id ← getitem lst "id";
  cards ← (remote c (get_all_tasks list_id 1) ≫= iter);
  blocks ← mapR (card_records c (<["listname" := listname]>
                                   (<["boardname" := boardname]> ∅))) cards;
  Ok (List.concat blocks).

(** The lists of a board after the two filters, as the server answers
    through the client [c]. *)
Definition lists_at (c : Kanboard) (board_id : value) : result value :=
  lists ← remote c (get_columns board_id);
  lists ←
    match configured_list "include_lists" with
    | [] => Ok lists
    | _ =>
        ls ← iter lists;
        kept ← filterR (fun l => title ← getitem l "title";
                                 Ok (value_in title (configured_list "include_lists")))
                 ls;
        Ok (VList kept)
    end;
  match configured_list "exclude_lists" with
  | [] => Ok lists
  | _ =>
      ls ← iter lists;
      kept ← filterR (fun l => title ← getitem l "title";
                               Ok (negb (value_in title
                                           (configured_list "exclude_lists")))) ls;
      Ok (VList kept)
  end.

(** The records of one board: those of its lists, one list after the
    other. *)
Definition board_records (c : Kanboard) (board : value) : result (list KanboardIssue) :=
  board_id ← getitem board "id";
  lists ← lists_at c board_id;
  lists ← iter lists;
  blocks ← mapR (list_records c board) lists;
  Ok (List.concat blocks).

(** The records of the whole traversal: those of every board, every list
    and every card, in that order, each as often as it is met. *)
Definition all_records (c : Kanboard) : result (list KanboardIssue) :=
  match config !! "include_boards" with
  | Some ids =>
      blocks ← mapR (fun boardid =>
                       board ← remote c (get_project_by_id (VStr boardid));
                       board_records c board) (aslist ids);
      Ok (List.concat blocks)
  | None =>
      boards ← (remote c get_all_projects ≫= iter);
      blocks ← mapR (board_records c) boards;
      Ok (List.concat blocks)
  end.

(** A step of a connected service that yields [block] and returns. *)
Definition yields (c : Kanboard) (m : M unit) (block : list KanboardIssue) : Prop :=
  forall st,
    KANBOARD_CONNECTION st = Some c ->
    exists st',
      m st = (Ok tt, st') /\
      KANBOARD_CONNECTION st' = Some c /\
      yielded st' = yielded st ++ block.

(** A step of a connected service that returns [a] and yields nothing. *)
Definition quiet {A : Type} (c : Kanboard) (m : M A) (a : A) : Prop :=
  forall st,
    KANBOARD_CONNECTION st = Some c ->
    exists st',
      m st = (Ok a, st') /\
      KANBOARD_CONNECTION st' = Some c /\
      yielded st' = yielded st.

(** The ids that are asked for, one after the other, until an answer is an
    error. *)
Fixpoint asked_until_failure {A B : Type} (f : A -> result B) (l : list A) : list A :=
  match l with
  | [] => []
  | x :: l' =>
      x :: match f x with
           | Ok _ => asked_until_failure f l'
           | Err _ => []
           end
  end.

(** ** The tasks of a project

    The server is not part of the module, which refers to the
    documentation of the Kanboard API for it.  There [getAllTasks] takes
    the id of a project and a status, 1 for the active tasks, and answers
    with the tasks of that project that have that status; a task names its
    project, its column and its status in the fields [project_id],
    [column_id] and [is_active].  [get_columns] sends the id of a board
    under the same keyword [project_id]. *)

(** An integer field of a task. *)
Definition int_field (key : string) (task : value) : option Z :=
  match getitem task key with
  | Ok (VInt n) => Some n
  | _ => None
  end.

(** The tasks of a project that have a status, in the order of the server. *)
Definition tasks_of_project (tasks : list value) (project_id status_id : Z)
  : list value :=
  List.filter (fun task =>
                 bool_decide (int_field "project_id" task = Some project_id)
                 && bool_decide (int_field "is_active" task = Some status_id)) tasks.

(** A server that holds [tasks] and answers [get_all_tasks] in that way. *)
Definition documented_server (tasks : list value) (c : Kanboard) (r : request)
  : result value :=
  match r with
  | get_all_tasks (VInt project_id) status_id =>
      Ok (VList (tasks_of_project tasks project_id status_id))
  | _ => Err (RemoteError "not described")
  end.

(** A task as the server holds it. *)
Definition sample_api_task (id project_id column_id is_active : Z) : value :=
  sample_dict [("id", VInt id); ("project_id", VInt project_id);
               ("column_id", VInt column_id); ("is_active", VInt is_active)].

(** Project 1 has the column 10 with one active task; project 10 has the
    column 77 with one active and one closed task. *)
Definition sample_api_tasks : list value :=
  [sample_api_task 100 1 10 1; sample_api_task 200 10 77 1; sample_api_task 201 10 77 0].

(** A base URL that is a host name. *)
Definition sample_config_httpd : gmap string string :=
  <["base_url" := "httpd.example.org"]> ∅.

(** * Properties *)
(** ** Running a method *)

Lemma bind_run {A B : Type} (m : M A) (f : A -> M B) (st : state) :
  (m ≫= f) st =
    match m st with
    | (Ok a, st') => f a st'
    | (Err e, st') => (Err e, st')
    end.
Proof. reflexivity. Qed.

Lemma lift_run {A : Type} (r : result A) (st : state) : lift r st = (r, st).
Proof. reflexivity. Qed.

Lemma ret_run {A : Type} (a : A) (st : state) : (mret a : M A) st = (Ok a, st).
Proof. reflexivity. Qed.

Lemma connect_connected base c st :
  config !! "base_url" = Some base ->
  KANBOARD_CONNECTION st = Some c ->
  connect st = (Ok tt, st).
Proof. intros Hb Hc. unfold connect. by rewrite Hb, Hc. Qed.

Lemma rpc_connected c r st :
  KANBOARD_CONNECTION st = Some c ->
  rpc r st = (remote c r, log_call c r st).
Proof. intros Hc. unfold rpc. by rewrite Hc. Qed.

Lemma for_list_app {A B : Type} (l1 l2 : list A) (body : A -> B -> M B) b st :
  for_list (l1 ++ l2) body b st =
    match for_list l1 body b st with
    | (Ok b', st') => for_list l2 body b' st'
    | (Err e, st') => (Err e, st')
    end.
Proof.
  revert b st. induction l1 as [|x l1 IH]; intros b st; simpl; [done|].
  rewrite !bind_run. destruct (body x b st) as [[b'|e] st']; [apply IH|done].
Qed.

Lemma for_list_collect {A : Type} (l acc : list A) st :
  for_list l (fun x acc => mret (acc ++ [x])) acc st = (Ok (acc ++ l), st).
Proof.
  revert acc. induction l as [|x l IH]; intros acc; simpl.
  - by rewrite app_nil_r.
  - rewrite bind_run, ret_run, IH. by rewrite <- app_assoc.
Qed.

(** ** The order of the states of a run *)

Lemma follows_refl st : follows st st.
Proof.
  exists [], []. rewrite !app_nil_r. split; [done|]. split; [done|].
  intros c Hc. by split.
Qed.

Lemma follows_trans st1 st2 st3 : follows st1 st2 -> follows st2 st3 -> follows st1 st3.
Proof.
  intros (n1 & i1 & Hc1 & Hy1 & H1) (n2 & i2 & Hc2 & Hy2 & H2).
  exists (n1 ++ n2), (i1 ++ i2). rewrite Hc2, Hc1, Hy2, Hy1, !app_assoc.
  split; [done|]. split; [done|].
  intros c Hc. destruct (H1 c Hc) as [Hc' F1]. destruct (H2 c Hc') as [Hc'' F2].
  split; [done|]. by apply Forall_app.
Qed.

Lemma monotone_ret {A : Type} (a : A) : monotone (mret a : M A).
Proof. intros st. apply follows_refl. Qed.

Lemma monotone_lift {A : Type} (r : result A) : monotone (lift r).
Proof. intros st. apply follows_refl. Qed.

Lemma monotone_bind {A B : Type} (m : M A) (f : A -> M B) :
  monotone m -> (forall a, monotone (f a)) -> monotone (m ≫= f).
Proof.
  intros Hm Hf st. rewrite bind_run. specialize (Hm st).
  destruct (m st) as [[a|e] st']; simpl in *; [|done].
  eapply follows_trans; [exact Hm|apply Hf].
Qed.

Lemma monotone_for_list {A B : Type} (l : list A) (body : A -> B -> M B) b :
  (forall x b', monotone (body x b')) -> monotone (for_list l body b).
Proof.
  intros Hbody. revert b. induction l as [|x l IH]; intros b; simpl.
  - apply monotone_ret.
  - apply monotone_bind; [apply Hbody|apply IH].
Qed.

Lemma monotone_connect : monotone connect.
Proof.
  intros st. unfold connect.
  destruct (config !! "base_url") as [base|]; [|apply follows_refl].
  destruct (KANBOARD_CONNECTION st) as [c|] eqn:Hc; [apply follows_refl|].
  exists [], []. simpl. rewrite !app_nil_r. split; [done|]. split; [done|].
  intros c'. by rewrite Hc.
Qed.

Lemma monotone_rpc r : monotone (rpc r).
Proof.
  intros st. unfold rpc.
  destruct (KANBOARD_CONNECTION st) as [c|] eqn:Hc; [|apply follows_refl].
  exists [(c, r)], []. simpl. rewrite app_nil_r. split; [done|]. split; [done|].
  intros c' Hc'. split; [done|]. assert (c' = c) as -> by congruence.
  by repeat constructor.
Qed.

Lemma monotone_receive issue b : monotone (receive issue b).
Proof.
  intros st. exists [], [issue]. simpl. rewrite app_nil_r.
  split; [done|]. split; [done|]. intros c Hc. by split.
Qed.

Create HintDb mono.
#[local] Hint Resolve monotone_ret monotone_lift monotone_connect monotone_rpc
  monotone_receive : mono.

Ltac mono :=
  repeat first
    [ apply monotone_bind; [|intros ?]
    | apply monotone_for_list; intros ? ?
    | solve [auto with mono] ].

Lemma monotone_get_boards : monotone_gen get_boards.
Proof.
  intros B body b Hbody. unfold get_boards.
  apply monotone_bind; [mono|intros _].
  destruct (config !! "include_boards"); mono.
Qed.

Lemma monotone_get_lists board : monotone (get_lists board).
Proof.
  unfold get_lists. mono.
  - destruct (configured_list "include_lists"); mono.
  - destruct (configured_list "exclude_lists"); mono.
Qed.

Lemma monotone_get_cards list_id : monotone_gen (get_cards list_id).
Proof. intros B body b Hbody. unfold get_cards. mono. Qed.

Lemma monotone_get_comments card_id : monotone_gen (get_comments card_id).
Proof. intros B body b Hbody. unfold get_comments. mono. Qed.

Lemma monotone_get_subtasks card_id : monotone_gen (get_subtasks card_id).
Proof. intros B body b Hbody. unfold get_subtasks. mono. Qed.

Lemma monotone_annotations card_json : monotone (annotations card_json).
Proof.
  unfold annotations, build_annotations, get_comments. mono.
Qed.

Lemma monotone_issue_of rec listextra : monotone (issue_of rec listextra).
Proof.
  unfold issue_of. apply monotone_bind; [apply monotone_annotations|intros a].
  apply monotone_ret.
Qed.

Lemma monotone_issues_card listextra card : monotone_gen (issues_card listextra card).
Proof.
  intros B yield b Hy. unfold issues_card.
  apply monotone_bind; [|intros b'].
  - apply monotone_get_subtasks. intros s b'.
    apply monotone_bind; [apply monotone_issue_of|intros i; apply Hy].
  - apply monotone_bind; [apply monotone_issue_of|intros i; apply Hy].
Qed.

Lemma monotone_issues_list board lst : monotone_gen (issues_list board lst).
Proof.
  intros B yield b Hy. unfold issues_list.
  apply monotone_bind; [mono|intros boardname].
  apply monotone_bind; [mono|intros listname].
  apply monotone_bind; [mono|intros list_id].
  apply monotone_get_cards. intros card b'. by apply monotone_issues_card.
Qed.

Lemma monotone_issues_board board : monotone_gen (issues_board board).
Proof.
  intros B yield b Hy. unfold issues_board.
  apply monotone_bind; [mono|intros id].
  apply monotone_bind; [apply monotone_get_lists|intros lists].
  apply monotone_bind; [mono|intros ls].
  apply monotone_for_list. intros lst b'. by apply monotone_issues_list.
Qed.

Lemma monotone_issues : monotone_gen issues.
Proof.
  intros B yield b Hy. unfold issues. apply monotone_get_boards.
  intros board b'. by apply monotone_issues_board.
Qed.

Lemma monotone_consume g : monotone_gen g -> monotone (consume g).
Proof. intros Hg. apply Hg. apply monotone_receive. Qed.

(** What has been yielded stays yielded, in its place, to the end of the
    traversal. *)
Lemma run_keeps_yielded st : yielded st `prefix_of` yielded (consume issues st).2.
Proof.
  destruct (monotone_consume issues monotone_issues st) as (n & i & _ & Hy & _).
  exists i. exact Hy.
Qed.

(** ** The connection *)

Lemma connect_run base st :
  config !! "base_url" = Some base ->
  connect st =
    (Ok tt, match KANBOARD_CONNECTION st with
            | Some _ => st
            | None => set_connection (client_for base) st
            end).
Proof.
  intros Hb. unfold connect, client_for. rewrite Hb.
  destruct (KANBOARD_CONNECTION st); [done|].
  by destruct (startswith base "http").
Qed.

Lemma connect_connects base st :
  config !! "base_url" = Some base ->
  exists c, KANBOARD_CONNECTION (connect st).2 = Some c.
Proof.
  intros Hb. rewrite (connect_run base st Hb).
  destruct (KANBOARD_CONNECTION st) as [c|] eqn:Hc; simpl; eauto.
Qed.

(** A run of the traversal continues the state of its first [connect]. *)
Lemma run_after_connect st : follows (connect st).2 (consume issues st).2.
Proof.
  unfold consume, issues, get_boards. rewrite bind_run.
  destruct (connect st) as [[[]|e] st1]; simpl; [|apply follows_refl].
  destruct (config !! "include_boards").
  - apply monotone_for_list. intros boardid acc.
    apply monotone_bind; [apply monotone_rpc|intros board].
    apply monotone_issues_board. apply monotone_receive.
  - apply monotone_bind; [apply monotone_rpc|intros boards].
    apply monotone_bind; [apply monotone_lift|intros bs].
    apply monotone_for_list. intros board acc.
    apply monotone_issues_board. apply monotone_receive.
Qed.

(** X22.  The client is made for the base URL itself when it starts with
    [http] and for [https://] followed by it otherwise; it is made by the
    first [connect] of a run only, and every request of the run goes
    through that client. *)
Theorem connect_once base :
  config !! "base_url" = Some base ->
  (forall st, KANBOARD_CONNECTION st = None ->
     connect st = (Ok tt, set_connection (client_for base) st)) /\
  (forall st c, KANBOARD_CONNECTION st = Some c -> connect st = (Ok tt, st)) /\
  (startswith base "http" = true -> client_url (client_for base) = base) /\
  (startswith base "http" = false ->
     client_url (client_for base) = ("https://" ++ base)%string) /\
  (let st' := (consume issues initial).2 in
   KANBOARD_CONNECTION st' = Some (client_for base) /\
   Forall (fun p => p.1 = client_for base) (calls st')).
Proof.
  intros Hb. split; [|split; [|split; [|split]]].
  - intros st Hc. rewrite (connect_run base st Hb). by rewrite Hc.
  - intros st c Hc. rewrite (connect_run base st Hb). by rewrite Hc.
  - intros H. unfold client_for. by rewrite H.
  - intros H. unfold client_for. by rewrite H.
  - pose proof (run_after_connect initial) as (n & i & Hcalls & _ & H).
    rewrite (connect_run base initial Hb) in Hcalls, H. simpl in Hcalls, H.
    destruct (H (client_for base) eq_refl) as [Hconn Hall].
    split; [done|]. by rewrite Hcalls.
Qed.

Lemma bind_assoc {A B C : Type} (m : M A) (f : A -> M B) (g : B -> M C) st :
  ((m ≫= f) ≫= g) st = (m ≫= (fun a => f a ≫= g)) st.
Proof. rewrite !bind_run. by destruct (m st) as [[a|e] st']. Qed.

Lemma for_list_pure {A B : Type} (g : A -> B -> result B) (body : A -> B -> M B) l b st :
  (forall x b' st', body x b' st' = (g x b', st')) ->
  for_list l body b st = (foldR g l b, st).
Proof.
  intros Hbody. revert b. induction l as [|x l IH]; intros b; simpl; [done|].
  rewrite bind_run, Hbody. destruct (g x b) as [b'|e]; simpl; [apply IH|done].
Qed.

Lemma foldR_snoc {A B : Type} (f : A -> result B) l acc :
  foldR (fun x acc => y ← f x; Ok (acc ++ [y])) l acc =
    (ys ← mapR f l; Ok (acc ++ ys)).
Proof.
  revert acc. induction l as [|x l IH]; intros acc; simpl.
  - by rewrite app_nil_r.
  - destruct (f x) as [y|e]; simpl; [|done].
    rewrite IH. destruct (mapR f l) as [ys|e]; simpl; [|done].
    by rewrite <- app_assoc.
Qed.

Lemma mapR_Forall2 {A B : Type} (f : A -> result B) l ys :
  Forall2 (fun x y => f x = Ok y) l ys -> mapR f l = Ok ys.
Proof.
  induction 1 as [|x y l ys Hx _ IH]; simpl; [done|]. by rewrite Hx, IH.
Qed.

(** The three fetches of one request: connect, send it, and loop over the
    items of the answer. *)
Lemma fetch_run {B : Type} r (body : value -> B -> M B) b base c st :
  config !! "base_url" = Some base ->
  KANBOARD_CONNECTION (connect st).2 = Some c ->
  (_ ← connect; v ← rpc r; l ← lift (iter v); for_list l body b) st =
    match remote c r ≫= iter with
    | Ok l => for_list l body b (log_call c r (connect st).2)
    | Err e => (Err e, log_call c r (connect st).2)
    end.
Proof.
  intros Hb Hc. rewrite bind_run. rewrite (connect_run base st Hb) in *.
  simpl in *. rewrite bind_run, (rpc_connected c r _ Hc).
  destruct (remote c r) as [v|e]; simpl; [|done].
  rewrite bind_run, lift_run. by destruct (iter v).
Qed.

Lemma connect_idem base st :
  config !! "base_url" = Some base -> (connect (connect st).2).2 = (connect st).2.
Proof.
  intros Hb. rewrite !(connect_run base _ Hb).
  by destruct (KANBOARD_CONNECTION st) eqn:Hc; simpl; [rewrite Hc|].
Qed.

Lemma log_call_connection c r st :
  KANBOARD_CONNECTION (log_call c r st) = KANBOARD_CONNECTION st.
Proof. done. Qed.

Lemma connect_log_call base c c' r st :
  config !! "base_url" = Some base ->
  KANBOARD_CONNECTION st = Some c ->
  (connect (log_call c' r st)).2 = log_call c' r st.
Proof. intros Hb Hc. rewrite (connect_run base _ Hb). simpl. by rewrite Hc. Qed.

(** The run of [annotations]. *)
Lemma annotations_run card base c st :
  config !! "base_url" = Some base ->
  KANBOARD_CONNECTION (connect st).2 = Some c ->
  annotations card st =
    match getitem card "id" with
    | Err e => (Err e, st)
    | Ok card_id =>
        match getitem card "shortUrl" with
        | Err e => (Err e, st)
        | Ok url =>
            (comments ← remote c (get_all_comments card_id);
             comments ← iter comments;
             pairs ← mapR comment_pair comments;
             Ok (VList ((fun p => VStr (format_annotation p.1 p.2 url)) <$> pairs)),
             log_call c (get_all_comments card_id) (connect st).2)
        end
    end.
Proof.
  intros Hb Hc. unfold annotations. rewrite bind_run, lift_run.
  destruct (getitem card "id") as [card_id|e]; [|done].
  rewrite bind_run, lift_run.
  destruct (getitem card "shortUrl") as [url|e]; [|done].
  unfold build_annotations, get_comments. rewrite bind_run.
  rewrite (fetch_run _ _ _ base c st Hb Hc).
  destruct (remote c (get_all_comments card_id)) as [v|e]; simpl; [|done].
  destruct (iter v) as [comments|e]; simpl; [|done].
  rewrite (for_list_pure
             (fun cm acc =>
                y ← (p ← comment_pair cm; Ok (VStr (format_annotation p.1 p.2 url)));
                Ok (acc ++ [y]))).
  - rewrite (foldR_snoc (fun cm => p ← comment_pair cm;
                                   Ok (VStr (format_annotation p.1 p.2 url)))).
    assert (mapR (fun cm => p ← comment_pair cm;
                            Ok (VStr (format_annotation p.1 p.2 url))) comments
            = ((fun ps => (fun p => VStr (format_annotation p.1 p.2 url)) <$> ps)
                 <$> mapR comment_pair comments)) as ->.
    { induction comments as [|cm cms IH]; simpl; [done|].
      destruct (comment_pair cm) as [p|e]; simpl; [|done].
      rewrite IH. by destruct (mapR comment_pair cms). }
    by destruct (mapR comment_pair comments).
  - intros cm acc st'. unfold comment_pair. rewrite bind_run, lift_run.
    destruct (getitem cm "memberCreator" ≫= _) as [username|e]; simpl; [|done].
    rewrite bind_run, lift_run.
    by destruct (getitem cm "data" ≫= _) as [text|e]; simpl.
Qed.

(** ** Annotations *)

(** C6.  The annotations of a card are one formatted annotation per
    remote comment, in the order of the comments, each made of the
    username of the comment's [memberCreator], its text and the short URL
    of the card; the comments are fetched by the id of the card.  A card
    without comments has no annotations. *)
Theorem annotations_per_comment card base c st card_id url comments pairs :
  config !! "base_url" = Some base ->
  KANBOARD_CONNECTION (connect st).2 = Some c ->
  getitem card "id" = Ok card_id ->
  getitem card "shortUrl" = Ok url ->
  remote c (get_all_comments card_id) = Ok (VList comments) ->
  Forall2 (fun comment p => comment_pair comment = Ok p) comments pairs ->
  annotations card st =
    (Ok (VList ((fun p => VStr (format_annotation p.1 p.2 url)) <$> pairs)),
     log_call c (get_all_comments card_id) (connect st).2) /\
  List.length pairs = List.length comments /\
  (comments = [] -> (annotations card st).1 = Ok (VList [])).
Proof.
  intros Hb Hc Hid Hurl Hremote Hpairs.
  rewrite (annotations_run card base c st Hb Hc), Hid, Hurl, Hremote. simpl.
  rewrite (mapR_Forall2 _ _ _ Hpairs). simpl.
  split; [done|]. split; [symmetry; by eapply Forall2_length|].
  intros ->. by inversion Hpairs.
Qed.

(** ** The fetch layer *)

(** X23.  Whatever the configuration holds, [get_cards] sends the one
    request [get_all_tasks(project_id=list_id, status_id=1)], with the
    status 1 of the source, and yields the items of the answer in their
    order. *)
Theorem get_cards_active_only list_id base c st :
  config !! "base_url" = Some base ->
  KANBOARD_CONNECTION (connect st).2 = Some c ->
  collect (get_cards list_id) st =
    (remote c (get_all_tasks list_id 1) ≫= iter,
     log_call c (get_all_tasks list_id 1) (connect st).2) /\
  calls (collect (get_cards list_id) st).2 = calls st ++ [(c, get_all_tasks list_id 1)] /\
  (forall cards, remote c (get_all_tasks list_id 1) = Ok (VList cards) ->
     (collect (get_cards list_id) st).1 = Ok cards).
Proof.
  intros Hb Hc.
  assert (collect (get_cards list_id) st =
            (remote c (get_all_tasks list_id 1) ≫= iter,
             log_call c (get_all_tasks list_id 1) (connect st).2)) as Hrun.
  { unfold collect, get_cards. rewrite (fetch_run _ _ _ base c st Hb Hc).
    destruct (remote c (get_all_tasks list_id 1) ≫= iter) as [l|e]; [|done].
    by rewrite for_list_collect. }
  rewrite Hrun. split; [done|]. split.
  - simpl. rewrite (connect_run base st Hb). by destruct (KANBOARD_CONNECTION st).
  - intros cards Hcards. simpl. by rewrite Hcards.
Qed.

(** C10.  [get_subtasks] sends its argument as the [task_id] of the
    request; the traversal hands it the whole card record, so that the
    first request of a card is [get_all_subtasks(task_id=card)], whereas
    the comments are requested with the id read from the card. *)
Theorem subtasks_requested_by_record listextra card base c st :
  config !! "base_url" = Some base ->
  KANBOARD_CONNECTION (connect st).2 = Some c ->
  (forall card_id,
     calls (collect (get_subtasks card_id) st).2
     = calls st ++ [(c, get_all_subtasks card_id)]) /\
  (exists later,
     calls (consume (issues_card listextra card) st).2
     = calls st ++ (c, get_all_subtasks card) :: later) /\
  (forall card_id url,
     getitem card "id" = Ok card_id ->
     getitem card "shortUrl" = Ok url ->
     calls (annotations card st).2 = calls st ++ [(c, get_all_comments card_id)]).
Proof.
  intros Hb Hc.
  assert (calls (connect st).2 = calls st) as Hcalls.
  { rewrite (connect_run base st Hb). by destruct (KANBOARD_CONNECTION st). }
  split; [|split].
  - intros card_id. unfold collect, get_subtasks.
    rewrite (fetch_run _ _ _ base c st Hb Hc).
    destruct (remote c (get_all_subtasks card_id) ≫= iter) as [l|e]; simpl.
    + rewrite for_list_collect. simpl. by rewrite Hcalls.
    + by rewrite Hcalls.
  - unfold consume, issues_card, get_subtasks.
    set (body := fun (subtask : value) (b : unit) => _).
    set (last := fun b : unit => _).
    rewrite bind_run, (fetch_run _ _ _ base c st Hb Hc).
    set (st2 := log_call c (get_all_subtasks card) (connect st).2).
    assert (calls st2 = calls st ++ [(c, get_all_subtasks card)]) as Hst2
      by (subst st2; simpl; by rewrite Hcalls).
    assert (forall x b', monotone (body x b')) as Hbody.
    { intros x b'. subst body. simpl.
      apply monotone_bind; [apply monotone_issue_of|intros i; apply monotone_receive]. }
    assert (forall b, monotone (last b)) as Hlast.
    { intros b. subst last. simpl.
      apply monotone_bind; [apply monotone_issue_of|intros i; apply monotone_receive]. }
    assert (forall st', follows st2 st' ->
              exists later, calls st' = calls st ++ (c, get_all_subtasks card) :: later)
      as Hlater.
    { intros st' (n & i & Hn & _). exists n. rewrite Hn, Hst2.
      by rewrite <- app_assoc. }
    destruct (remote c (get_all_subtasks card) ≫= iter) as [l|e].
    + pose proof (monotone_for_list l body tt Hbody st2) as H1.
      destruct (for_list l body tt st2) as [[b|e] st3]; simpl in *.
      * apply Hlater. eapply follows_trans; [exact H1|apply Hlast].
      * by apply Hlater.
    + apply Hlater, follows_refl.
  - intros card_id url Hid Hurl.
    rewrite (annotations_run card base c st Hb Hc), Hid, Hurl. simpl.
    by rewrite Hcalls.
Qed.

(** ** The rounds of the traversal *)

Lemma connect_connected_2 base c st :
  config !! "base_url" = Some base ->
  KANBOARD_CONNECTION st = Some c ->
  KANBOARD_CONNECTION (connect st).2 = Some c.
Proof. intros Hb Hc. by rewrite (connect_connected base c st Hb Hc). Qed.

Lemma annotations_at_run rec base c st :
  config !! "base_url" = Some base ->
  KANBOARD_CONNECTION (connect st).2 = Some c ->
  (annotations rec st).1 = annotations_at c rec.
Proof.
  intros Hb Hc. unfold annotations_at.
  rewrite (annotations_run rec base c st Hb Hc).
  rewrite (annotations_run rec base c (State (Some c) [] []) Hb)
    by by apply (connect_connected_2 base).
  destruct (getitem rec "id"); [|done]. by destruct (getitem rec "shortUrl").
Qed.

Lemma annotations_state rec base c st :
  config !! "base_url" = Some base ->
  KANBOARD_CONNECTION st = Some c ->
  KANBOARD_CONNECTION (annotations rec st).2 = Some c /\
  yielded (annotations rec st).2 = yielded st.
Proof.
  intros Hb Hc.
  rewrite (annotations_run rec base c st Hb (connect_connected_2 base c st Hb Hc)).
  rewrite (connect_connected base c st Hb Hc).
  destruct (getitem rec "id"); [|done]. by destruct (getitem rec "shortUrl").
Qed.

(** One round: the issue of the record with its own annotations. *)
Lemma issue_of_run rec listextra base c st a :
  config !! "base_url" = Some base ->
  KANBOARD_CONNECTION st = Some c ->
  annotations_at c rec = Ok a ->
  (issue ← issue_of rec listextra; receive issue tt) st =
    (Ok tt, push (update_extra (get_issue_for_record rec listextra)
                    {["annotations" := a]}) (annotations rec st).2).
Proof.
  intros Hb Hc Ha. unfold issue_of. rewrite !bind_run.
  pose proof (annotations_at_run rec base c st Hb
                (connect_connected_2 base c st Hb Hc)) as H.
  rewrite Ha in H. destruct (annotations rec st) as [r st']. simpl in H. by subst r.
Qed.

Lemma yield_loop listextra base c recs annots st :
  config !! "base_url" = Some base ->
  KANBOARD_CONNECTION st = Some c ->
  Forall2 (fun rec a => annotations_at c rec = Ok a) recs annots ->
  exists st',
    for_list recs
      (fun rec b => issue ← issue_of rec listextra; receive issue b)
      tt st = (Ok tt, st') /\
    KANBOARD_CONNECTION st' = Some c /\
    yielded st' =
      yielded st ++
      zip_with (fun rec a => update_extra (get_issue_for_record rec listextra)
                               {["annotations" := a]}) recs annots.
Proof.
  intros Hb Hc HF. revert st Hc.
  induction HF as [|rec a recs annots Ha _ IH]; intros st Hc; simpl.
  - exists st. by rewrite app_nil_r.
  - rewrite bind_run, (issue_of_run rec listextra base c st a Hb Hc Ha).
    destruct (annotations_state rec base c st Hb Hc) as [Hc' Hy'].
    destruct (IH (push (update_extra (get_issue_for_record rec listextra)
                          {["annotations" := a]}) (annotations rec st).2))
      as (st' & Hrun & Hconn & Hy); [done|].
    exists st'. split; [done|]. split; [done|].
    rewrite Hy. simpl. rewrite Hy'. by rewrite <- app_assoc.
Qed.

(** X24.  The round of one card.  For a card with N subtasks it yields N+1
    issues: one per subtask, in the order of the subtasks and each with
    the annotations of that subtask, and then the one of the card.  They
    are added to whatever was yielded before. *)
Theorem issues_card_yields listextra card base c st subtasks annots :
  config !! "base_url" = Some base ->
  KANBOARD_CONNECTION (connect st).2 = Some c ->
  remote c (get_all_subtasks card) = Ok (VList subtasks) ->
  Forall2 (fun rec a => annotations_at c rec = Ok a) (subtasks ++ [card]) annots ->
  let new :=
    zip_with (fun rec a => update_extra (get_issue_for_record rec listextra)
                             {["annotations" := a]})
             (subtasks ++ [card]) annots in
  (consume (issues_card listextra card) st).1 = Ok tt /\
  yielded (consume (issues_card listextra card) st).2 = yielded st ++ new /\
  List.length new = S (List.length subtasks) /\
  record <$> new = subtasks ++ [card] /\
  Forall2 (fun issue a => extra issue !! "annotations" = Some a) new annots.
Proof.
  intros Hb Hc Hsub HF new.
  assert (List.length annots = S (List.length subtasks)) as Hlen.
  { apply Forall2_length in HF. rewrite length_app in HF. simpl in HF. lia. }
  assert (forall (recs : list value) (ans : list value),
            List.length recs = List.length ans ->
            let l := zip_with (fun rec a =>
                       update_extra (get_issue_for_record rec listextra)
                         {["annotations" := a]}) recs ans in
            List.length l = List.length recs /\ record <$> l = recs /\
            Forall2 (fun issue a => extra issue !! "annotations" = Some a) l ans)
    as Hzip.
  { induction recs as [|r recs IH]; intros [|a ans] Hl; simpl in Hl; try done.
    destruct (IH ans) as (H1 & H2 & H3); [lia|]. csimpl.
    split; [by rewrite H1|]. split; [by rewrite H2|].
    constructor; [|done].
    apply lookup_union_Some_l, lookup_singleton_eq. }
  destruct (Hzip (subtasks ++ [card]) annots) as (Hl & Hrec & Hann).
  { rewrite length_app. simpl. lia. }
  cut (exists st', consume (issues_card listextra card) st = (Ok tt, st') /\
                   yielded st' = yielded st ++ new).
  { intros (st' & -> & Hy). simpl. repeat split; try done.
    fold new in Hl. rewrite Hl, length_app. simpl. lia. }
  apply Forall2_app_inv_l in HF as (an_sub & an_card & Hsubs & Hcard & ->).
  inversion Hcard as [|? a ? ? Ha Hnil]; subst. inversion Hnil; subst.
  unfold consume, issues_card, get_subtasks.
  rewrite bind_run, (fetch_run _ _ _ base c st Hb Hc), Hsub. simpl.
  assert (KANBOARD_CONNECTION (log_call c (get_all_subtasks card) (connect st).2)
          = Some c) as Hc2 by done.
  destruct (yield_loop listextra base c subtasks an_sub _ Hb Hc2 Hsubs)
    as (st3 & Hrun & Hc3 & Hy3).
  rewrite Hrun.
  rewrite (issue_of_run card listextra base c st3 a Hb Hc3 Ha).
  eexists. split; [done|]. simpl.
  destruct (annotations_state card base c st3 Hb Hc3) as [_ ->].
  rewrite Hy3. simpl. subst new.
  assert (yielded (connect st).2 = yielded st) as ->.
  { rewrite (connect_run base st Hb). by destruct (KANBOARD_CONNECTION st). }
  rewrite zip_with_app by (by eapply Forall2_length). simpl.
  by rewrite <- app_assoc.
Qed.

(** ** The filters of the lists *)

Lemma filterR_filter {A : Type} (p : A -> result bool) (q : A -> bool) l :
  Forall (fun x => p x = Ok (q x)) l -> filterR p l = Ok (List.filter q l).
Proof.
  induction 1 as [|x l Hx _ IH]; simpl; [done|].
  rewrite Hx, IH. simpl. by destruct (q x).
Qed.

Lemma filter_sublist {A : Type} (q : A -> bool) (l : list A) :
  List.filter q l `sublist_of` l.
Proof.
  induction l as [|x l IH]; simpl; [done|].
  destruct (q x); [by apply sublist_skip|by apply sublist_cons].
Qed.

Lemma include_titled titles l :
  Forall (fun lst => exists title, getitem lst "title" = Ok title) l ->
  Forall (fun lst => (title ← getitem lst "title"; Ok (value_in title titles))
                     = Ok (title_in titles lst)) l.
Proof.
  intros H. eapply Forall_impl; [exact H|].
  intros lst [title Ht]. unfold title_in. by rewrite Ht.
Qed.

Lemma exclude_titled titles l :
  Forall (fun lst => exists title, getitem lst "title" = Ok title) l ->
  Forall (fun lst => (title ← getitem lst "title"; Ok (negb (value_in title titles)))
                     = Ok (negb (title_in titles lst))) l.
Proof.
  intros H. eapply Forall_impl; [exact H|].
  intros lst [title Ht]. unfold title_in. by rewrite Ht.
Qed.

Lemma title_in_true titles lst :
  title_in titles lst = true <->
  exists title, getitem lst "title" = Ok (VStr title) /\ title ∈ titles.
Proof.
  unfold title_in. split.
  - destruct (getitem lst "title") as [[| | |s| | |]|e]; simpl; try done.
    intros H. exists s. split; [done|]. by apply bool_decide_eq_true in H.
  - intros (title & -> & Hin). simpl. by apply bool_decide_eq_true.
Qed.

(** C3.  [get_lists] answers with the remote columns filtered by the
    include list and then by the exclude list, each filter being skipped
    when its list is empty or not configured; the answer keeps the remote
    order, and a column is in it exactly when it is a remote column whose
    title is in the include list (if any) and not in the exclude list (if
    any). *)
Theorem get_lists_filtered board base c st columns :
  config !! "base_url" = Some base ->
  KANBOARD_CONNECTION (connect st).2 = Some c ->
  remote c (get_columns board) = Ok (VList columns) ->
  Forall (fun lst => exists title, getitem lst "title" = Ok title) columns ->
  let include_lists := configured_list "include_lists" in
  let exclude_lists := configured_list "exclude_lists" in
  let kept := filter_lists include_lists exclude_lists columns in
  get_lists board st =
    (Ok (VList kept), log_call c (get_columns board) (connect st).2) /\
  kept `sublist_of` columns /\
  (forall lst, lst ∈ kept <->
     lst ∈ columns /\
     (include_lists = [] \/
      exists title, getitem lst "title" = Ok (VStr title) /\ title ∈ include_lists) /\
     (exclude_lists = [] \/
      ~ exists title, getitem lst "title" = Ok (VStr title) /\ title ∈ exclude_lists)).
Proof.
  intros Hb Hc Hremote Htitles include_lists exclude_lists kept.
  split; [|split].
  - unfold get_lists. rewrite bind_run, (connect_run base st Hb).
    rewrite (connect_run base st Hb) in Hc. simpl in *.
    rewrite bind_run, (rpc_connected c _ _ Hc), Hremote.
    fold include_lists exclude_lists. subst kept. unfold filter_lists.
    set (st2 := log_call c (get_columns board) _).
    assert (Forall (fun lst => exists title, getitem lst "title" = Ok title)
              (List.filter (title_in include_lists) columns)) as Htitles'.
    { apply Forall_forall. intros lst Hin.
      apply list_elem_of_In, filter_In in Hin as [Hin _].
      rewrite Forall_forall in Htitles. by apply Htitles, list_elem_of_In. }
    destruct include_lists as [|i il] eqn:Hi; destruct exclude_lists as [|e el] eqn:He.
    + done.
    + rewrite !bind_run, ret_run, bind_run, lift_run. simpl.
      rewrite bind_run, lift_run.
      by rewrite (filterR_filter _ _ _ (exclude_titled (e :: el) columns Htitles)).
    + rewrite !bind_run, lift_run. simpl. rewrite bind_run, lift_run.
      by rewrite (filterR_filter _ _ _ (include_titled (i :: il) columns Htitles)).
    + rewrite !bind_run, lift_run. simpl. rewrite bind_run, lift_run.
      rewrite (filterR_filter _ _ _ (include_titled (i :: il) columns Htitles)).
      rewrite ret_run, bind_run, lift_run. simpl. rewrite bind_run, lift_run.
      by rewrite (filterR_filter _ _ _ (exclude_titled (e :: el) _ Htitles')).
  - subst kept. unfold filter_lists.
    destruct include_lists, exclude_lists; try done;
      try apply filter_sublist.
    etrans; apply filter_sublist.
  - intros lst. subst kept. unfold filter_lists.
    rewrite <- !title_in_true.
    destruct include_lists as [|i il] eqn:Hi; destruct exclude_lists as [|e el] eqn:He;
      rewrite ?list_elem_of_In, ?filter_In, ?negb_true_iff, ?list_elem_of_In.
    + split; [intros H1; split; [done|split; by left]|by intros [H1 _]].
    + split; [intros [H1 H2]|intros (H1 & _ & [H2|H2])]; try done.
      * split; [done|]. split; [by left|]. right. by rewrite H2.
      * split; [done|]. by destruct (title_in (e :: el) lst).
    + split; [intros [H1 H2]|intros (H1 & [H2|H2] & _)]; try done.
      split; [done|]. split; [by right|by left].
    + split; [intros [[H1 H2] H3]|intros (H1 & [H2|H2] & [H3|H3])]; try done.
      * split; [done|]. split; [by right|]. right. by rewrite H3.
      * split; [done|]. by destruct (title_in (e :: el) lst).
Qed.

(** ** Columns without a name *)

Lemma for_list_raise {A B : Type} (pre post : list A) x (body : A -> B -> M B)
    b b' e st st' st'' :
  for_list pre body b st = (Ok b', st') ->
  body x b' st' = (Err e, st'') ->
  for_list (pre ++ x :: post) body b st = (Err e, st'').
Proof.
  intros Hpre Hx. rewrite for_list_app, Hpre. simpl. by rewrite bind_run, Hx.
Qed.


(** ** The record mapping *)

Lemma mapped_fields_tags self b l d n i sl su u tw tags :
  mapped_fields self b l d n i sl su u tw ->
  mapped_fields self b l d n i sl su u (<["tags" := tags]> tw).
Proof.
  unfold mapped_fields, NAME, CARDID, BOARD, LIST, SHORTLINK, SHORTURL, URL.
  intros H. repeat (rewrite lookup_insert_ne by done). exact H.
Qed.

(** C1.  On an issue whose lookups succeed, [to_taskwarrior] builds a
    record with the project, the priority [M], the parsed due date, the
    seven Kanboard fields and the annotations, and adds the tags exactly
    when the flag [import_labels_as_tags] is true.  A due date that is
    [None] or that does not parse gives no due date and no error. *)
Theorem to_taskwarrior_mapping self boardname listname due name cardid
    shortlink shorturl url flag :
  extra self !! "boardname" = Some boardname ->
  extra self !! "listname" = Some listname ->
  getitem (record self) "due" = Ok due ->
  getitem (record self) "name" = Ok name ->
  getitem (record self) "id" = Ok cardid ->
  getitem (record self) "shortLink" = Ok shortlink ->
  getitem (record self) "shortUrl" = Ok shorturl ->
  getitem (record self) "url" = Ok url ->
  origin self !! "import_labels_as_tags" = Some flag ->
  (exists tw0,
     mapped_fields self boardname listname due name cardid shortlink shorturl url tw0 /\
     tw0 !! "tags" = None /\
     to_taskwarrior self =
       if truthy flag
       then tags ← get_tags self tw0; Ok (<["tags" := VList tags]> tw0)
       else Ok tw0) /\
  (forall tw, to_taskwarrior self = Ok tw ->
     mapped_fields self boardname listname due name cardid shortlink shorturl url tw /\
     (is_Some (tw !! "tags") <-> truthy flag = true)) /\
  (truthy flag = false -> exists tw, to_taskwarrior self = Ok tw) /\
  parse_date VNone = VNone /\
  (forall s, parse_datetime s = None -> parse_date (VStr s) = VNone).
Proof.
  intros Hb Hl Hdue Hname Hid Hsl Hsu Hurl Hflag.
  assert (exists tw0,
     mapped_fields self boardname listname due name cardid shortlink shorturl url tw0 /\
     tw0 !! "tags" = None /\
     to_taskwarrior self =
       if truthy flag
       then tags ← get_tags self tw0; Ok (<["tags" := VList tags]> tw0)
       else Ok tw0) as (tw0 & Hfields & Hnotags & Hrun).
  { eexists. split; [|split]; cycle 2.
    - unfold to_taskwarrior, dict_getitem.
      rewrite Hb, Hl, Hdue, Hname, Hid, Hsl, Hsu, Hurl, Hflag. simpl.
      reflexivity.
    - unfold mapped_fields, NAME, CARDID, BOARD, LIST, SHORTLINK, SHORTURL, URL.
      repeat split; by simplify_map_eq.
    - unfold NAME, CARDID, BOARD, LIST, SHORTLINK, SHORTURL, URL.
      by simplify_map_eq. }
  split; [by exists tw0|]. split; [|split; [|split]].
  - intros tw Htw. rewrite Hrun in Htw. destruct (truthy flag).
    + destruct (get_tags self tw0) as [tags|e]; simpl in Htw; [|done].
      injection Htw as <-. split; [by apply mapped_fields_tags|].
      rewrite lookup_insert_eq. split; [done|by eexists].
    + injection Htw as <-. split; [done|]. rewrite Hnotags.
      split; [by intros [? ?]|done].
  - intros Hf. exists tw0. by rewrite Hrun, Hf.
  - reflexivity.
  - intros s Hs. simpl. by rewrite Hs.
Qed.

(** ** The tags *)

Lemma append_empty (s : string) : String.append s EmptyString = s.
Proof.
  induction s as [|ch s IH]; [done|].
  change (String ch (String.append s EmptyString) = String ch s). by rewrite IH.
Qed.

Lemma default_template :
  Template (VStr DEFAULT_LABEL_TEMPLATE) =
    Ok (fun context => Ok (render_nodes [JOutput "label" [FReplace " " "_"]] context)).
Proof. reflexivity. Qed.

Lemma default_template_render (twdict : gmap string value) text :
  render_nodes [JOutput "label" [FReplace " " "_"]] (<["label" := VStr text]> twdict)
  = str_replace " " "_" text.
Proof.
  unfold render_nodes, render_node. simpl. by rewrite lookup_insert_eq, append_empty.
Qed.

(** C7.  The tags are the renderings of the configured template, one per
    label and in the order of the labels, each in the record built so far
    with the name of the label added as [label]; the default template
    replaces the spaces of the name by underscores. *)
Theorem get_tags_per_label self twdict tmpl labels names :
  Template (dict_get (origin self) "label_template" (VStr DEFAULT_LABEL_TEMPLATE))
    = Ok tmpl ->
  getitem (record self) "labels" = Ok (VList labels) ->
  Forall2 (fun label name => getitem label "name" = Ok name) labels names ->
  get_tags self twdict
    = mapR (fun name => VStr <$> tmpl (<["label" := name]> twdict)) names /\
  (forall tags, get_tags self twdict = Ok tags ->
     List.length tags = List.length labels /\
     Forall2 (fun name tag =>
                exists text, tmpl (<["label" := name]> twdict) = Ok text /\
                             tag = VStr text) names tags) /\
  (dict_get (origin self) "label_template" (VStr DEFAULT_LABEL_TEMPLATE)
     = VStr DEFAULT_LABEL_TEMPLATE ->
   (forall texts, names = VStr <$> texts ->
      get_tags self twdict = Ok ((fun text => VStr (str_replace " " "_" text)) <$> texts)) /\
   (names = [VStr "In Progress"] -> get_tags self twdict = Ok [VStr "In_Progress"])).
Proof.
  intros Htmpl Hlabels Hnames.
  assert (get_tags self twdict
          = mapR (fun name => VStr <$> tmpl (<["label" := name]> twdict)) names) as Hrun.
  { unfold get_tags. rewrite Htmpl, Hlabels. simpl. clear Hlabels.
    induction Hnames as [|label name labels names Hn _ IH]; simpl; [done|].
    rewrite Hn. simpl. rewrite IH.
    by destruct (tmpl (<["label" := name]> twdict)). }
  split; [exact Hrun|]. split.
  - rewrite Hrun. rewrite (Forall2_length _ _ _ Hnames). clear.
    induction names as [|name names IH]; intros tags Htags; simpl in Htags.
    + injection Htags as <-. by split.
    + destruct (tmpl (<["label" := name]> twdict)) as [text|e] eqn:Ht;
        simpl in Htags; [|done].
      destruct (mapR _ names) as [rest|e]; simpl in Htags; [|done].
      injection Htags as <-. destruct (IH rest eq_refl) as [Hlen HF].
      split; [simpl; by rewrite Hlen|]. constructor; [by exists text|done].
  - intros Hdefault. rewrite Hdefault, default_template in Htmpl.
    injection Htmpl as <-.
    assert (forall texts, names = VStr <$> texts ->
              get_tags self twdict
              = Ok ((fun text => VStr (str_replace " " "_" text)) <$> texts)) as Hd.
    { intros texts ->. rewrite Hrun. clear.
      induction texts as [|text texts IH]; [done|].
      rewrite !fmap_cons. cbn [mapR]. rewrite IH.
      by rewrite lookup_insert_eq, append_empty. }
    split; [exact Hd|]. intros ->. by rewrite (Hd ["In Progress"]).
Qed.

(** ** Validation of the configuration *)

Lemma validate_config_api_key target :
  IssueService_validate_config config target = Ok tt ->
  validate_config config target =
    match config !! "api_key" with
    | Some _ => Ok tt
    | None => die ("[" ++ target ++ "] has no 'kanboard.api_key'")%string
    end.
Proof. intros H. unfold validate_config, check_key. by rewrite H. Qed.

(** The first request of a run that is not given its boards. *)
Lemma first_request base :
  config !! "base_url" = Some base ->
  config !! "include_boards" = None ->
  exists later,
    calls (consume issues initial).2 = (client_for base, get_all_projects) :: later.
Proof.
  intros Hb Hi. unfold consume, issues, get_boards.
  rewrite bind_run, (connect_run base initial Hb), Hi. simpl.
  rewrite bind_run, (rpc_connected (client_for base)) by done.
  set (st2 := log_call _ _ _).
  assert (forall st', follows st2 st' ->
            exists later, calls st' = (client_for base, get_all_projects) :: later)
    as Hlater.
  { intros st' (n & i & Hn & _). exists n. by rewrite Hn. }
  destruct (remote (client_for base) get_all_projects) as [boards|e];
    [|apply Hlater, follows_refl].
  rewrite bind_run, lift_run.
  destruct (iter boards) as [bs|e]; [|apply Hlater, follows_refl].
  apply Hlater, monotone_for_list. intros board acc.
  apply monotone_issues_board, monotone_receive.
Qed.

(** C4.  [validate_config] asks for [api_key] only.  A configuration
    with an [api_key] and a base URL but no [token] passes it, and the run
    then sends its first request through a client that has no token. *)
Theorem token_not_validated base key target :
  config !! "api_key" = Some key ->
  config !! "token" = None ->
  config !! "base_url" = Some base ->
  config !! "include_boards" = None ->
  IssueService_validate_config config target = Ok tt ->
  validate_config config target = Ok tt /\
  client_token (client_for base) = None /\
  exists later,
    calls (consume issues initial).2 = (client_for base, get_all_projects) :: later.
Proof.
  intros Hkey Htoken Hb Hi Hsuper. split; [|split].
  - by rewrite (validate_config_api_key target Hsuper), Hkey.
  - unfold client_for. simpl. exact Htoken.
  - by apply first_request.
Qed.

(** A configuration without a base URL passes [validate_config] as well;
    the run then stops on the attribute lookup of [connect], before any
    request. *)
Lemma base_url_not_validated key target :
  config !! "api_key" = Some key ->
  config !! "base_url" = None ->
  IssueService_validate_config config target = Ok tt ->
  validate_config config target = Ok tt /\
  consume issues initial = (Err AttributeError, initial).
Proof.
  intros Hkey Hb Hsuper. split.
  - by rewrite (validate_config_api_key target Hsuper), Hkey.
  - unfold consume, issues, get_boards, connect. rewrite bind_run. by rewrite Hb.
Qed.

(** * Further properties *)

(** ** The record mapping, read backwards *)

Lemma to_taskwarrior_inv self tw :
  to_taskwarrior self = Ok tw ->
  exists boardname listname due name cardid shortlink shorturl url flag,
    extra self !! "boardname" = Some boardname /\
    extra self !! "listname" = Some listname /\
    getitem (record self) "due" = Ok due /\
    getitem (record self) "name" = Ok name /\
    getitem (record self) "id" = Ok cardid /\
    getitem (record self) "shortLink" = Ok shortlink /\
    getitem (record self) "shortUrl" = Ok shorturl /\
    getitem (record self) "url" = Ok url /\
    origin self !! "import_labels_as_tags" = Some flag /\
    let tw0 := record_before_tags boardname listname due name cardid shortlink
                 shorturl url (dict_get (extra self) "annotations" (VList [])) in
    if truthy flag
    then exists tags, get_tags self tw0 = Ok tags /\ tw = <["tags" := VList tags]> tw0
    else tw = tw0.
Proof.
  unfold to_taskwarrior, dict_getitem. intros H.
  destruct (extra self !! "boardname") as [boardname|] eqn:Hb; [|done].
  simpl in H.
  destruct (getitem (record self) "due") as [due|] eqn:Hdue; [|done].
  destruct (getitem (record self) "name") as [name|] eqn:Hname; [|done].
  destruct (getitem (record self) "id") as [cardid|] eqn:Hid; [|done].
  simpl in H.
  destruct (extra self !! "listname") as [listname|] eqn:Hl; [|done].
  simpl in H.
  destruct (getitem (record self) "shortLink") as [shortlink|] eqn:Hsl; [|done].
  destruct (getitem (record self) "shortUrl") as [shorturl|] eqn:Hsu; [|done].
  destruct (getitem (record self) "url") as [url|] eqn:Hurl; [|done].
  simpl in H.
  destruct (origin self !! "import_labels_as_tags") as [flag|] eqn:Hflag; [|done].
  simpl in H.
  exists boardname, listname, due, name, cardid, shortlink, shorturl, url, flag.
  repeat (split; [done|]). simpl.
  destruct (truthy flag).
  - unfold record_before_tags.
    destruct (get_tags self _) as [tags|e]; simpl in H; [|done].
    exists tags. split; [done|]. by injection H as <-.
  - by injection H as <-.
Qed.

Lemma getitem_Ok v key x :
  getitem v key = Ok x -> exists d, v = VDict d /\ d !! key = Some x.
Proof.
  destruct v as [| | | | | |d]; simpl; try done.
  destruct (d !! key) as [y|] eqn:Hy; [|done]. intros [= <-]. by exists d.
Qed.

(** X1.  [to_taskwarrior] returns a record only for an issue whose record
    is a dict with the keys [due], [name], [id], [shortLink], [shortUrl]
    and [url], whose extra has the names of the board and of the list, and
    whose origin has the flag. *)
Theorem to_taskwarrior_needs_fields self tw :
  to_taskwarrior self = Ok tw ->
  exists d,
    record self = VDict d /\
    Forall (fun key => is_Some (d !! key))
      ["due"; "name"; "id"; "shortLink"; "shortUrl"; "url"] /\
    is_Some (extra self !! "boardname") /\
    is_Some (extra self !! "listname") /\
    is_Some (origin self !! "import_labels_as_tags").
Proof.
  intros H. apply to_taskwarrior_inv in H
    as (b & l & due & n & i & sl & su & u & flag & Hb & Hl & Hdue & Hn & Hi & Hsl
        & Hsu & Hu & Hflag & _).
  apply getitem_Ok in Hdue as (d & Hrec & Hdue). exists d. split; [done|].
  rewrite Hrec in Hn, Hi, Hsl, Hsu, Hu.
  apply getitem_Ok in Hn as (? & [= <-] & Hn).
  apply getitem_Ok in Hi as (? & [= <-] & Hi).
  apply getitem_Ok in Hsl as (? & [= <-] & Hsl).
  apply getitem_Ok in Hsu as (? & [= <-] & Hsu).
  apply getitem_Ok in Hu as (? & [= <-] & Hu).
  split; [repeat constructor; by eexists|]. repeat split; by eexists.
Qed.

(** X2.  The keys of a record that [to_taskwarrior] returns are the seven
    attributes that [UDAS] declares, [project], [priority], [due] and
    [annotations], and [tags] when the flag is true: every declared
    attribute is set and nothing else is. *)
Theorem to_taskwarrior_keys self tw flag :
  to_taskwarrior self = Ok tw ->
  origin self !! "import_labels_as_tags" = Some flag ->
  dom tw = dom UDAS ∪ standard_keys ∪ (if truthy flag then {["tags"]} else ∅).
Proof.
  intros H Hflag. apply to_taskwarrior_inv in H
    as (b & l & due & n & i & sl & su & u & flag' & _ & _ & _ & _ & _ & _ & _ & _
        & Hflag' & H).
  rewrite Hflag in Hflag'. injection Hflag' as <-. simpl in H.
  assert (forall annots,
            dom (record_before_tags b l due n i sl su u annots)
            = dom UDAS ∪ standard_keys) as Hdom.
  { intros annots. unfold record_before_tags, UDAS, standard_keys.
    rewrite !dom_insert_L, !dom_empty_L. set_solver. }
  destruct (truthy flag).
  - destruct H as (tags & _ & ->). rewrite dom_insert_L, Hdom. set_solver.
  - subst tw. rewrite Hdom. set_solver.
Qed.

(** X3.  A record made from an issue of the service has tags exactly when
    the option [import_labels_as_tags] is set to a text that [asbool] reads
    as true; when the option is not set, no record has tags. *)
Theorem tags_follow_option rec listextra more tw :
  to_taskwarrior (update_extra (get_issue_for_record rec listextra) more) = Ok tw ->
  is_Some (tw !! "tags") <->
  exists text, config !! "import_labels_as_tags" = Some text /\ asbool text = true.
Proof.
  intros H. apply to_taskwarrior_inv in H
    as (b & l & due & n & i & sl & su & u & flag & _ & _ & _ & _ & _ & _ & _ & _
        & Hflag & H).
  simpl in Hflag. unfold get_service_metadata in Hflag.
  rewrite lookup_insert_ne, lookup_insert_eq in Hflag by done.
  injection Hflag as <-. simpl in H.
  assert (forall annots,
            record_before_tags b l due n i sl su u annots !! "tags" = None) as Hnone.
  { intros annots.
    unfold record_before_tags, NAME, CARDID, BOARD, LIST, SHORTLINK, SHORTURL, URL.
    by simplify_map_eq. }
  destruct (config !! "import_labels_as_tags") as [text|]; simpl in H.
  - destruct (asbool text) eqn:Hbool.
    + destruct H as (tags & _ & ->). rewrite lookup_insert_eq.
      split; [intros _; by exists text|by eexists].
    + subst tw. rewrite Hnone. split; [by intros [? ?]|].
      intros (text' & [= <-] & Ht). congruence.
  - subst tw. rewrite Hnone. split; [by intros [? ?]|by intros (? & ? & _)].
Qed.

(** X4.  When the template is rejected, [to_taskwarrior] fails with the
    error of the template for every issue whose flag is true, whatever its
    labels, even when it has none; when the flag is false the template is
    not looked at and the record is returned. *)
Theorem rejected_template self boardname listname due name cardid
    shortlink shorturl url flag e :
  extra self !! "boardname" = Some boardname ->
  extra self !! "listname" = Some listname ->
  getitem (record self) "due" = Ok due ->
  getitem (record self) "name" = Ok name ->
  getitem (record self) "id" = Ok cardid ->
  getitem (record self) "shortLink" = Ok shortlink ->
  getitem (record self) "shortUrl" = Ok shorturl ->
  getitem (record self) "url" = Ok url ->
  origin self !! "import_labels_as_tags" = Some flag ->
  Template (dict_get (origin self) "label_template" (VStr DEFAULT_LABEL_TEMPLATE))
    = Err e ->
  to_taskwarrior self =
    if truthy flag then Err e
    else Ok (record_before_tags boardname listname due name cardid shortlink
               shorturl url (dict_get (extra self) "annotations" (VList []))).
Proof.
  intros Hb Hl Hdue Hname Hid Hsl Hsu Hurl Hflag Htmpl.
  unfold to_taskwarrior, dict_getitem.
  rewrite Hb, Hl, Hdue, Hname, Hid, Hsl, Hsu, Hurl, Hflag. simpl.
  destruct (truthy flag); [|done].
  unfold get_tags. by rewrite Htmpl.
Qed.

(** X5.  When [get_default_description] returns, the record is a dict with
    the keys [name], [shortUrl] and [idShort], and the title and the URL
    that it hands over for the description are the values that
    [to_taskwarrior] stores as card name and short URL. *)
Theorem description_agrees_with_record self text :
  get_default_description self = Ok text ->
  exists title url number,
    getitem (record self) "name" = Ok title /\
    getitem (record self) "shortUrl" = Ok url /\
    getitem (record self) "idShort" = Ok number /\
    text = build_default_description title url number "task" /\
    forall tw, to_taskwarrior self = Ok tw ->
      tw !! NAME = Some title /\ tw !! SHORTURL = Some url.
Proof.
  unfold get_default_description. intros H.
  destruct (getitem (record self) "name") as [title|] eqn:Hname; [|done].
  destruct (getitem (record self) "shortUrl") as [url|] eqn:Hurl; [|done].
  destruct (getitem (record self) "idShort") as [number|] eqn:Hnum; [|done].
  simpl in H. injection H as <-.
  exists title, url, number. repeat (split; [done|]).
  intros tw Htw. apply to_taskwarrior_inv in Htw
    as (b & l & due & n & i & sl & su & u & flag & _ & _ & _ & Hn & _ & _ & Hsu & _
        & _ & H).
  rewrite Hname in Hn. injection Hn as <-. rewrite Hurl in Hsu. injection Hsu as <-.
  assert (forall annots,
            record_before_tags b l due title i sl url u annots !! NAME = Some title /\
            record_before_tags b l due title i sl url u annots !! SHORTURL = Some url)
    as Hrec.
  { intros annots.
    unfold record_before_tags, NAME, CARDID, BOARD, LIST, SHORTLINK, SHORTURL, URL.
    split; by simplify_map_eq. }
  simpl in H. destruct (truthy flag).
  - destruct H as (tags & _ & ->). unfold NAME, SHORTURL.
    rewrite !lookup_insert_ne by done. apply Hrec.
  - subst tw. apply Hrec.
Qed.

(** ** The default template *)

Lemma prefix_empty s : String.prefix EmptyString s = true.
Proof. by destruct s. Qed.

Lemma replace_space ch s :
  replace_from 0 " " "_" (String ch s)
  = String (if Ascii.eqb ch " " then "_"%char else ch) (replace_from 0 " " "_" s).
Proof.
  cbn [replace_from String.prefix].
  destruct (ascii_dec " " ch) as [<-|Hne].
  - by rewrite prefix_empty.
  - destruct (Ascii.eqb ch " ") eqn:Hch; [|done].
    apply Ascii.eqb_eq in Hch. by subst ch.
Qed.

Lemma replace_space_facts s :
  no_space (replace_from 0 " " "_" s) = true /\
  String.length (replace_from 0 " " "_" s) = String.length s /\
  (no_space s = true -> replace_from 0 " " "_" s = s).
Proof.
  induction s as [|ch s (IH1 & IH2 & IH3)]; [done|].
  rewrite replace_space. destruct (Ascii.eqb ch " ") eqn:Hch; simpl; rewrite ?Hch.
  - rewrite IH1, IH2. split; [done|]. split; [done|]. done.
  - rewrite IH1, IH2. split; [done|]. split; [done|].
    simpl. intros H. by rewrite IH3.
Qed.

(** X6.  With the default template every label whose name is text gets one
    tag, and that tag has no space, has the length of the name and is the
    name itself when the name has no space. *)
Theorem default_tags_no_space self twdict labels texts :
  dict_get (origin self) "label_template" (VStr DEFAULT_LABEL_TEMPLATE)
    = VStr DEFAULT_LABEL_TEMPLATE ->
  getitem (record self) "labels" = Ok (VList labels) ->
  Forall2 (fun label text => getitem label "name" = Ok (VStr text)) labels texts ->
  exists tags,
    get_tags self twdict = Ok (VStr <$> tags) /\
    Forall2 (fun text tag =>
               no_space tag = true /\
               String.length tag = String.length text /\
               (no_space text = true -> tag = text)) texts tags.
Proof.
  intros Hdefault Hlabels Hnames.
  exists (str_replace " " "_" <$> texts). split.
  - unfold get_tags. rewrite Hdefault, default_template, Hlabels. simpl.
    clear Hlabels. induction Hnames as [|label text labels texts Hn _ IH]; [done|].
    rewrite !fmap_cons. cbn [mapR]. rewrite Hn, IH. cbn [mbind result_bind]. cbn beta.
    by rewrite lookup_insert_eq, append_empty.
  - clear. induction texts as [|text texts IH]; [constructor|].
    rewrite fmap_cons. constructor; [|exact IH].
    apply (replace_space_facts text).
Qed.

(** ** Validation of the configuration, in full *)

(** X7.  [validate_config] accepts a configuration exactly when the
    validation of the base class accepts it and it has an [api_key]; an
    error of the base class is passed on, and a missing [api_key] ends the
    run with a message that names the target and the option.  No other
    option is looked at. *)
Theorem validate_config_passes service_config target :
  (validate_config service_config target = Ok tt <->
   IssueService_validate_config service_config target = Ok tt /\
   is_Some (service_config !! "api_key")) /\
  (forall e, IssueService_validate_config service_config target = Err e ->
     validate_config service_config target = Err e) /\
  (IssueService_validate_config service_config target = Ok tt ->
   service_config !! "api_key" = None ->
   validate_config service_config target
   = Err (SystemExit ("[" ++ target ++ "] has no 'kanboard.api_key'")%string)).
Proof.
  unfold validate_config, check_key, die.
  destruct (IssueService_validate_config service_config target) as [[]|e0];
    destruct (service_config !! "api_key") as [key|]; simpl.
  - split; [split; [by eauto|done]|]. by split.
  - split; [split; [done|by intros [_ [? ?]]]|]. by split.
  - split; [split; [done|by intros [? _]]|]. split; [by intros e [= <-]|done].
  - split; [split; [done|by intros [? _]]|]. split; [by intros e [= <-]|done].
Qed.

(** ** The boards *)

Lemma connect_keeps base st :
  config !! "base_url" = Some base ->
  calls (connect st).2 = calls st /\ yielded (connect st).2 = yielded st.
Proof.
  intros Hb. rewrite (connect_run base st Hb). by destruct (KANBOARD_CONNECTION st).
Qed.

Lemma asked_all {A B : Type} (f : A -> result B) l ys :
  mapR f l = Ok ys -> asked_until_failure f l = l.
Proof.
  revert ys. induction l as [|x l IH]; intros ys H; simpl in *; [done|].
  destruct (f x) as [y|e]; simpl in H; [|done].
  destruct (mapR f l) as [zs|e]; simpl in H; [|done].
  by rewrite (IH zs eq_refl).
Qed.

Lemma asked_stop {A B : Type} (f : A -> result B) pre x post ys e :
  mapR f pre = Ok ys -> f x = Err e ->
  mapR f (pre ++ x :: post) = Err e /\
  asked_until_failure f (pre ++ x :: post) = pre ++ [x].
Proof.
  revert ys. induction pre as [|p pre IH]; intros ys Hpre Hx; simpl in *.
  - by rewrite Hx.
  - destruct (f p) as [y|e']; simpl in Hpre; [|done].
    destruct (mapR f pre) as [zs|e']; simpl in Hpre; [|done].
    destruct (IH zs eq_refl Hx) as [-> ->]. done.
Qed.

Lemma boards_loop c ids acc st :
  KANBOARD_CONNECTION st = Some c ->
  for_list ids
    (fun boardid acc =>
       board ← rpc (get_project_by_id (VStr boardid)); mret (acc ++ [board]))
    acc st
  = (boards ← mapR (fun boardid => remote c (get_project_by_id (VStr boardid))) ids;
     Ok (acc ++ boards),
     State (Some c)
       (calls st ++ ((fun boardid => (c, get_project_by_id (VStr boardid)))
                       <$> asked_until_failure
                             (fun boardid => remote c (get_project_by_id (VStr boardid)))
                             ids))
       (yielded st)).
Proof.
  revert acc st. induction ids as [|boardid ids IH]; intros acc st Hc.
  - simpl. rewrite !app_nil_r. destruct st as [conn cs ys].
    simpl in *. by subst conn.
  - simpl. rewrite bind_run, bind_run, (rpc_connected c _ _ Hc).
    destruct (remote c (get_project_by_id (VStr boardid))) as [board|e] eqn:Hr.
    + rewrite ret_run.
      rewrite (IH (acc ++ [board]) (log_call c (get_project_by_id (VStr boardid)) st));
        [|done].
      simpl. rewrite <- app_assoc. simpl.
      by destruct (mapR _ ids) as [boards|e]; simpl; rewrite <- ?app_assoc.
    + simpl. unfold log_call. by rewrite Hc.
Qed.

(** X8.  With [include_boards] configured, [get_boards] asks for the
    configured ids by [get_project_by_id], one after the other in the
    configured order, and yields what each call answers; it never asks for
    all projects.  The requests that it sends are exactly those for the
    ids up to the first one whose call fails: all of them when every call
    answers, and otherwise the ids before the failing one and the failing
    one, after which it raises the error of that call and asks for none of
    the ids that follow. *)
Theorem get_boards_configured ids base c st :
  config !! "base_url" = Some base ->
  config !! "include_boards" = Some ids ->
  KANBOARD_CONNECTION (connect st).2 = Some c ->
  let fetch := fun boardid => remote c (get_project_by_id (VStr boardid)) in
  collect get_boards st
  = (mapR fetch (aslist ids),
     State (Some c)
       (calls st ++ ((fun boardid => (c, get_project_by_id (VStr boardid)))
                       <$> asked_until_failure fetch (aslist ids)))
       (yielded st)) /\
  (forall boards,
     mapR fetch (aslist ids) = Ok boards ->
     asked_until_failure fetch (aslist ids) = aslist ids) /\
  (forall pre boardid post boards e,
     aslist ids = pre ++ boardid :: post ->
     mapR fetch pre = Ok boards ->
     fetch boardid = Err e ->
     mapR fetch (aslist ids) = Err e /\
     asked_until_failure fetch (aslist ids) = pre ++ [boardid]).
Proof.
  intros Hb Hi Hc fetch. destruct (connect_keeps base st Hb) as [Hcalls Hyielded].
  pose proof (boards_loop c (aslist ids) [] (connect st).2 Hc) as Hrun.
  split; [|split].
  - unfold collect, get_boards. rewrite bind_run, (connect_run base st Hb), Hi.
    rewrite (connect_run base st Hb) in Hrun, Hcalls, Hyielded. simpl in *.
    rewrite Hrun, Hcalls, Hyielded. unfold fetch.
    by destruct (mapR _ (aslist ids)).
  - intros boards. apply asked_all.
  - intros pre boardid post boards e -> Hpre Hfail.
    by apply (asked_stop fetch pre boardid post boards e).
Qed.

(** X9.  Without [include_boards], [get_boards] sends the one request
    [get_all_projects] and yields the items of the answer in their order. *)
Theorem get_boards_all base c st :
  config !! "base_url" = Some base ->
  config !! "include_boards" = None ->
  KANBOARD_CONNECTION (connect st).2 = Some c ->
  collect get_boards st
  = (remote c get_all_projects ≫= iter,
     log_call c get_all_projects (connect st).2).
Proof.
  intros Hb Hi Hc. unfold collect, get_boards. rewrite Hi.
  rewrite (fetch_run _ _ _ base c st Hb Hc).
  destruct (remote c get_all_projects ≫= iter) as [l|e]; [|done].
  by rewrite for_list_collect.
Qed.

(** X10.  The configured boards are fetched one at a time, each after the
    traversal of the one before: when the round of a board raises, in its
    fetch or in its traversal, the run ends there, with what it has
    yielded, and the boards after it are not requested. *)
Theorem issues_stops_at_failing_board ids pre boardid post base st st1 st2 e :
  config !! "base_url" = Some base ->
  config !! "include_boards" = Some ids ->
  aslist ids = pre ++ boardid :: post ->
  for_list pre board_round tt (connect st).2 = (Ok tt, st1) ->
  board_round boardid tt st1 = (Err e, st2) ->
  consume issues st = (Err e, st2).
Proof.
  intros Hb Hi Hsplit Hpre Hround.
  unfold consume, issues, get_boards.
  rewrite bind_run, (connect_run base st Hb), Hi, Hsplit.
  rewrite (connect_run base st Hb) in Hpre. simpl in *.
  change (for_list (pre ++ boardid :: post) board_round tt
            match KANBOARD_CONNECTION st with
            | Some _ => st
            | None => set_connection (client_for base) st
            end = (Err e, st2)).
  by eapply for_list_raise.
Qed.

(** X11.  [get_comments] and [get_subtasks] each send one request with the
    id they are given and yield every item of the answer, in its order. *)
Theorem fetch_in_remote_order card_id base c st :
  config !! "base_url" = Some base ->
  KANBOARD_CONNECTION (connect st).2 = Some c ->
  collect (get_comments card_id) st
  = (remote c (get_all_comments card_id) ≫= iter,
     log_call c (get_all_comments card_id) (connect st).2) /\
  collect (get_subtasks card_id) st
  = (remote c (get_all_subtasks card_id) ≫= iter,
     log_call c (get_all_subtasks card_id) (connect st).2).
Proof.
  intros Hb Hc. split.
  - unfold collect, get_comments. rewrite (fetch_run _ _ _ base c st Hb Hc).
    destruct (remote c (get_all_comments card_id) ≫= iter) as [l|e]; [|done].
    by rewrite for_list_collect.
  - unfold collect, get_subtasks. rewrite (fetch_run _ _ _ base c st Hb Hc).
    destruct (remote c (get_all_subtasks card_id) ≫= iter) as [l|e]; [|done].
    by rewrite for_list_collect.
Qed.

(** X12.  Without a base URL every fetch raises [AttributeError] in
    [connect] and sends nothing, even on a service that has a client. *)
Theorem fetch_without_base_url st :
  config !! "base_url" = None ->
  connect st = (Err AttributeError, st) /\
  (forall board, get_lists board st = (Err AttributeError, st)) /\
  (forall (B : Type) (body : value -> B -> M B) b,
     get_boards B body b st = (Err AttributeError, st)) /\
  (forall list_id (B : Type) (body : value -> B -> M B) b,
     get_cards list_id B body b st = (Err AttributeError, st)) /\
  (forall card_id (B : Type) (body : value -> B -> M B) b,
     get_comments card_id B body b st = (Err AttributeError, st)) /\
  (forall card_id (B : Type) (body : value -> B -> M B) b,
     get_subtasks card_id B body b st = (Err AttributeError, st)).
Proof.
  intros Hb.
  assert (connect st = (Err AttributeError, st)) as Hconnect
    by (unfold connect; by rewrite Hb).
  split; [done|]. repeat split; intros;
    unfold get_lists, get_boards, get_cards, get_comments, get_subtasks;
    by rewrite bind_run, Hconnect.
Qed.

(** ** The lists, at the edges *)

Lemma filterR_raise {A : Type} (p : A -> result bool) (pre post : list A) x e :
  Forall (fun y => exists b, p y = Ok b) pre ->
  p x = Err e ->
  filterR p (pre ++ x :: post) = Err e.
Proof.
  intros Hpre Hx. induction Hpre as [|y pre [b Hy] _ IH]; simpl.
  - by rewrite Hx.
  - by rewrite Hy, IH.
Qed.

Lemma get_lists_run board base c st columns :
  config !! "base_url" = Some base ->
  KANBOARD_CONNECTION (connect st).2 = Some c ->
  remote c (get_columns board) = Ok (VList columns) ->
  Forall (fun lst => exists title, getitem lst "title" = Ok title) columns ->
  get_lists board st =
    (Ok (VList (filter_lists (configured_list "include_lists")
                  (configured_list "exclude_lists") columns)),
     log_call c (get_columns board) (connect st).2).
Proof.
  intros Hb Hc Hremote Htitles.
  unfold get_lists. rewrite bind_run, (connect_run base st Hb).
  rewrite (connect_run base st Hb) in Hc. simpl in *.
  rewrite bind_run, (rpc_connected c _ _ Hc), Hremote. unfold filter_lists.
  set (st2 := log_call c (get_columns board) _).
  assert (Forall (fun lst => exists title, getitem lst "title" = Ok title)
            (List.filter (title_in (configured_list "include_lists")) columns))
    as Htitles'.
  { apply Forall_forall. intros lst Hin.
    apply list_elem_of_In, filter_In in Hin as [Hin _].
    rewrite Forall_forall in Htitles. by apply Htitles, list_elem_of_In. }
  destruct (configured_list "include_lists") as [|i il];
    destruct (configured_list "exclude_lists") as [|e el].
  - done.
  - rewrite !bind_run, ret_run, bind_run, lift_run. simpl.
    rewrite bind_run, lift_run.
    by rewrite (filterR_filter _ _ _ (exclude_titled (e :: el) columns Htitles)).
  - rewrite !bind_run, lift_run. simpl. rewrite bind_run, lift_run.
    by rewrite (filterR_filter _ _ _ (include_titled (i :: il) columns Htitles)).
  - rewrite !bind_run, lift_run. simpl. rewrite bind_run, lift_run.
    rewrite (filterR_filter _ _ _ (include_titled (i :: il) columns Htitles)).
    rewrite ret_run, bind_run, lift_run. simpl. rewrite bind_run, lift_run.
    by rewrite (filterR_filter _ _ _ (exclude_titled (e :: el) _ Htitles')).
Qed.

(** X13.  With neither list configured, [get_lists] gives back what the
    server answers as it is, an error or a value of any shape: it reads no
    title and does not loop over the answer. *)
Theorem get_lists_unfiltered board base c st :
  config !! "base_url" = Some base ->
  KANBOARD_CONNECTION (connect st).2 = Some c ->
  configured_list "include_lists" = [] ->
  configured_list "exclude_lists" = [] ->
  get_lists board st
  = (remote c (get_columns board), log_call c (get_columns board) (connect st).2).
Proof.
  intros Hb Hc Hi He. unfold get_lists.
  rewrite bind_run, (connect_run base st Hb).
  rewrite (connect_run base st Hb) in Hc. simpl in *.
  rewrite bind_run, (rpc_connected c _ _ Hc), Hi, He.
  by destruct (remote c (get_columns board)).
Qed.

(** X14.  With a filter configured, a column that has no [title] key makes
    [get_lists] raise [KeyError] for that key, after the request; the
    columns that pass are not returned. *)
Theorem get_lists_missing_title board base c st pre d post :
  config !! "base_url" = Some base ->
  KANBOARD_CONNECTION (connect st).2 = Some c ->
  remote c (get_columns board) = Ok (VList (pre ++ VDict d :: post)) ->
  Forall (fun lst => exists title, getitem lst "title" = Ok title) pre ->
  d !! "title" = None ->
  configured_list "include_lists" <> [] \/ configured_list "exclude_lists" <> [] ->
  get_lists board st
  = (Err (KeyError "title"), log_call c (get_columns board) (connect st).2).
Proof.
  intros Hb Hc Hremote Hpre Hd Hfilter. unfold get_lists.
  rewrite bind_run, (connect_run base st Hb).
  rewrite (connect_run base st Hb) in Hc. simpl in *.
  rewrite bind_run, (rpc_connected c _ _ Hc), Hremote.
  assert (forall q : bool -> bool,
            Forall (fun y => exists b,
                      (title ← getitem y "title"; Ok (q (value_in title
                         (configured_list "include_lists")))) = Ok b) pre) as Hin.
  { intros q. eapply Forall_impl; [exact Hpre|]. intros y [t Ht]. rewrite Ht. by eexists. }
  assert (forall q : bool -> bool,
            Forall (fun y => exists b,
                      (title ← getitem y "title"; Ok (q (value_in title
                         (configured_list "exclude_lists")))) = Ok b) pre) as Hex.
  { intros q. eapply Forall_impl; [exact Hpre|]. intros y [t Ht]. rewrite Ht. by eexists. }
  destruct (configured_list "include_lists") as [|i il] eqn:Hi.
  - destruct (configured_list "exclude_lists") as [|e el] eqn:He; [by destruct Hfilter|].
    rewrite !bind_run, ret_run, bind_run, lift_run. simpl. rewrite bind_run, lift_run.
    rewrite (filterR_raise _ pre post (VDict d) (KeyError "title") (Hex negb)); [done|].
    simpl. by rewrite Hd.
  - rewrite !bind_run, lift_run. simpl. rewrite bind_run, lift_run.
    rewrite (filterR_raise _ pre post (VDict d) (KeyError "title")
               (Hin (fun b => b))); [done|].
    simpl. by rewrite Hd.
Qed.

(** X15.  A column whose title is not text is compared with the configured
    titles and equals none of them: an include list drops it and an exclude
    list keeps it, whatever they hold. *)
Theorem title_not_text board base c st columns lst title :
  config !! "base_url" = Some base ->
  KANBOARD_CONNECTION (connect st).2 = Some c ->
  remote c (get_columns board) = Ok (VList columns) ->
  Forall (fun lst => exists title, getitem lst "title" = Ok title) columns ->
  lst ∈ columns ->
  getitem lst "title" = Ok title ->
  (forall text, title <> VStr text) ->
  exists kept,
    get_lists board st
    = (Ok (VList kept), log_call c (get_columns board) (connect st).2) /\
    (lst ∈ kept <-> configured_list "include_lists" = []).
Proof.
  intros Hb Hc Hremote Htitles Hin Htitle Hnot.
  eexists. split; [by apply (get_lists_run board base c st columns)|].
  assert (forall titles, title_in titles lst = false) as Hfalse.
  { intros titles. unfold title_in. rewrite Htitle.
    destruct title; try done. by destruct (Hnot s). }
  unfold filter_lists. apply list_elem_of_In in Hin.
  destruct (configured_list "include_lists") as [|i il];
    destruct (configured_list "exclude_lists") as [|e el];
    rewrite ?list_elem_of_In, ?filter_In, ?Hfalse, ?list_elem_of_In.
  - by split.
  - simpl. by split.
  - split; [by intros [_ ?]|done].
  - split; [by intros [[_ ?] _]|done].
Qed.

(** X16.  A board of which no column passes the filters costs the one
    request for its columns and yields nothing; its name is not read. *)
Theorem board_without_lists board board_id base c st columns :
  config !! "base_url" = Some base ->
  KANBOARD_CONNECTION (connect st).2 = Some c ->
  getitem board "id" = Ok board_id ->
  remote c (get_columns board_id) = Ok (VList columns) ->
  Forall (fun lst => exists title, getitem lst "title" = Ok title) columns ->
  filter_lists (configured_list "include_lists") (configured_list "exclude_lists")
    columns = [] ->
  consume (issues_board board) st
  = (Ok tt, log_call c (get_columns board_id) (connect st).2).
Proof.
  intros Hb Hc Hid Hremote Htitles Hnone.
  unfold consume, issues_board. rewrite bind_run, lift_run, Hid, bind_run.
  rewrite (get_lists_run board_id base c st columns Hb Hc Hremote Htitles), Hnone.
  by rewrite bind_run, lift_run.
Qed.

(** ** Annotations, at the edges *)

(** X17.  A record that has no [shortUrl] key has no annotations:
    [annotations] raises [KeyError], for [id] when that key is missing too
    and for [shortUrl] otherwise, and it does not request the comments. *)
Theorem annotations_missing_key d st :
  d !! "shortUrl" = None ->
  annotations (VDict d) st
  = (Err (KeyError (match d !! "id" with
                    | Some _ => "shortUrl"
                    | None => "id"
                    end)), st).
Proof.
  intros Hurl. unfold annotations. rewrite bind_run, lift_run. simpl.
  destruct (d !! "id") as [card_id|]; [|done].
  rewrite bind_run, lift_run. simpl. by rewrite Hurl.
Qed.

Lemma mapR_raise {A B : Type} (f : A -> result B) (pre post : list A) x e :
  Forall (fun y => exists b, f y = Ok b) pre ->
  f x = Err e ->
  mapR f (pre ++ x :: post) = Err e.
Proof.
  intros Hpre Hx. induction Hpre as [|y pre [b Hy] _ IH]; simpl.
  - by rewrite Hx.
  - by rewrite Hy, IH.
Qed.

(** X18.  One comment without author or text spoils the annotations of its
    card: [annotations] raises the error of that comment, after the
    request, and the comments read before it are lost. *)
Theorem annotations_bad_comment card base c st card_id url pre comment post e :
  config !! "base_url" = Some base ->
  KANBOARD_CONNECTION (connect st).2 = Some c ->
  getitem card "id" = Ok card_id ->
  getitem card "shortUrl" = Ok url ->
  remote c (get_all_comments card_id) = Ok (VList (pre ++ comment :: post)) ->
  Forall (fun cm => exists p, comment_pair cm = Ok p) pre ->
  comment_pair comment = Err e ->
  annotations card st
  = (Err e, log_call c (get_all_comments card_id) (connect st).2).
Proof.
  intros Hb Hc Hid Hurl Hremote Hpre Hbad.
  rewrite (annotations_run card base c st Hb Hc), Hid, Hurl, Hremote. simpl.
  by rewrite (mapR_raise comment_pair pre post comment e Hpre Hbad).
Qed.

(** ** The round of a card, at the edges *)

Lemma issue_of_fail rec listextra base c st e b :
  config !! "base_url" = Some base ->
  KANBOARD_CONNECTION st = Some c ->
  annotations_at c rec = Err e ->
  (issue ← issue_of rec listextra; receive issue b) st
  = (Err e, (annotations rec st).2).
Proof.
  intros Hb Hc He. unfold issue_of. rewrite !bind_run.
  pose proof (annotations_at_run rec base c st Hb
                (connect_connected_2 base c st Hb Hc)) as H.
  rewrite He in H. destruct (annotations rec st) as [r st']. simpl in H. by subst r.
Qed.

(** X19.  When the annotations of a subtask fail, the round of the card
    raises that error: the issues of the subtasks before it have been
    yielded, and neither the later subtasks nor the card itself are. *)
Theorem issues_card_stops_at_subtask listextra card base c st pre subtask post
    annots e :
  config !! "base_url" = Some base ->
  KANBOARD_CONNECTION (connect st).2 = Some c ->
  remote c (get_all_subtasks card) = Ok (VList (pre ++ subtask :: post)) ->
  Forall2 (fun rec a => annotations_at c rec = Ok a) pre annots ->
  annotations_at c subtask = Err e ->
  (consume (issues_card listextra card) st).1 = Err e /\
  yielded (consume (issues_card listextra card) st).2
  = yielded st ++
    zip_with (fun rec a => update_extra (get_issue_for_record rec listextra)
                             {["annotations" := a]}) pre annots.
Proof.
  intros Hb Hc Hsub Hpre Hfail.
  unfold consume, issues_card, get_subtasks.
  rewrite bind_run, (fetch_run _ _ _ base c st Hb Hc), Hsub. simpl.
  assert (KANBOARD_CONNECTION (log_call c (get_all_subtasks card) (connect st).2)
          = Some c) as Hc2 by done.
  destruct (yield_loop listextra base c pre annots _ Hb Hc2 Hpre)
    as (st3 & Hrun & Hc3 & Hy3).
  rewrite for_list_app, Hrun. simpl.
  rewrite bind_run, (issue_of_fail subtask listextra base c st3 e tt Hb Hc3 Hfail).
  simpl. destruct (annotations_state subtask base c st3 Hb Hc3) as [_ ->].
  rewrite Hy3. simpl. destruct (connect_keeps base st Hb) as [_ ->]. done.
Qed.

Lemma annotations_calls rec base c st card_id a :
  config !! "base_url" = Some base ->
  KANBOARD_CONNECTION st = Some c ->
  getitem rec "id" = Ok card_id ->
  annotations_at c rec = Ok a ->
  calls (annotations rec st).2 = calls st ++ [(c, get_all_comments card_id)].
Proof.
  intros Hb Hc Hid Ha.
  pose proof (connect_connected_2 base c st Hb Hc) as Hc'.
  pose proof (annotations_at_run rec base c st Hb Hc') as H. rewrite Ha in H.
  rewrite (annotations_run rec base c st Hb Hc') in *. rewrite Hid in *.
  destruct (getitem rec "shortUrl"); [|done]. simpl.
  by rewrite (connect_connected base c st Hb Hc).
Qed.

Lemma yield_loop_calls listextra base c recs annots ids st :
  config !! "base_url" = Some base ->
  KANBOARD_CONNECTION st = Some c ->
  Forall2 (fun rec a => annotations_at c rec = Ok a) recs annots ->
  Forall2 (fun rec card_id => getitem rec "id" = Ok card_id) recs ids ->
  exists st',
    for_list recs
      (fun rec b => issue ← issue_of rec listextra; receive issue b)
      tt st = (Ok tt, st') /\
    KANBOARD_CONNECTION st' = Some c /\
    calls st' = calls st ++ ((fun card_id => (c, get_all_comments card_id)) <$> ids).
Proof.
  intros Hb Hc HF. revert st ids Hc.
  induction HF as [|rec a recs annots Ha _ IH]; intros st ids Hc Hids.
  - inversion Hids; subst. exists st. simpl. by rewrite app_nil_r.
  - inversion Hids as [|? card_id ? ids' Hid Hids']; subst. simpl.
    rewrite bind_run, (issue_of_run rec listextra base c st a Hb Hc Ha).
    destruct (annotations_state rec base c st Hb Hc) as [Hc' _].
    destruct (IH (push (update_extra (get_issue_for_record rec listextra)
                          {["annotations" := a]}) (annotations rec st).2) ids')
      as (st' & Hrun & Hconn & Hcalls); [done|done|].
    exists st'. split; [done|]. split; [done|].
    rewrite Hcalls. simpl.
    rewrite (annotations_calls rec base c st card_id a Hb Hc Hid Ha).
    by rewrite <- app_assoc.
Qed.

(** X20.  The round of a card with N subtasks sends N+2 requests: the one
    for the subtasks, with the card record, and then one for the comments
    of each subtask and of the card, with their ids and in the order of the
    issues. *)
Theorem issues_card_requests listextra card base c st subtasks annots ids :
  config !! "base_url" = Some base ->
  KANBOARD_CONNECTION (connect st).2 = Some c ->
  remote c (get_all_subtasks card) = Ok (VList subtasks) ->
  Forall2 (fun rec a => annotations_at c rec = Ok a) (subtasks ++ [card]) annots ->
  Forall2 (fun rec card_id => getitem rec "id" = Ok card_id) (subtasks ++ [card]) ids ->
  calls (consume (issues_card listextra card) st).2
  = calls st ++ (c, get_all_subtasks card)
      :: ((fun card_id => (c, get_all_comments card_id)) <$> ids) /\
  List.length ids = S (List.length subtasks).
Proof.
  intros Hb Hc Hsub HF Hids. split.
  - apply Forall2_app_inv_l in HF as (an_sub & an_card & Hsubs & Hcard & ->).
    inversion Hcard as [|? a ? ? Ha Hnil]; subst. inversion Hnil; subst.
    apply Forall2_app_inv_l in Hids as (id_sub & id_card & Hidsub & Hidcard & ->).
    inversion Hidcard as [|? card_id ? ? Hid Hnil']; subst. inversion Hnil'; subst.
    unfold consume, issues_card, get_subtasks.
    rewrite bind_run, (fetch_run _ _ _ base c st Hb Hc), Hsub. simpl.
    assert (KANBOARD_CONNECTION (log_call c (get_all_subtasks card) (connect st).2)
            = Some c) as Hc2 by done.
    destruct (yield_loop_calls listextra base c subtasks an_sub id_sub _ Hb Hc2
                Hsubs Hidsub) as (st3 & Hrun & Hc3 & Hcalls3).
    rewrite Hrun. rewrite (issue_of_run card listextra base c st3 a Hb Hc3 Ha). simpl.
    rewrite (annotations_calls card base c st3 card_id a Hb Hc3 Hid Ha), Hcalls3.
    simpl. destruct (connect_keeps base st Hb) as [-> _].
    rewrite fmap_app. simpl. by rewrite <- !app_assoc.
  - apply Forall2_length in Hids. rewrite length_app in Hids. simpl in Hids. lia.
Qed.

(** ** From the traversal to the record *)

(** X21.  The record of an issue that the traversal yields has the name of
    the board as project and as board, the [name] of the list as list, and
    as annotations those that the traversal attached to the issue. *)
Theorem yielded_issue_record rec boardname listname annots tw :
  to_taskwarrior
    (update_extra
       (get_issue_for_record rec
          (<["listname" := listname]> (<["boardname" := boardname]> ∅)))
       {["annotations" := annots]}) = Ok tw ->
  tw !! "project" = Some boardname /\
  tw !! BOARD = Some boardname /\
  tw !! LIST = Some listname /\
  tw !! "annotations" = Some annots.
Proof.
  intros H. apply to_taskwarrior_inv in H
    as (b & l & due & n & i & sl & su & u & flag & Hb & Hl & _ & _ & _ & _ & _ & _
        & _ & H).
  simpl in Hb, Hl, H.
  rewrite lookup_union_r, lookup_insert_ne, lookup_insert_eq in Hb by done.
  rewrite lookup_union_r, lookup_insert_eq in Hl by done.
  injection Hb as <-. injection Hl as <-.
  unfold dict_get in H. rewrite lookup_union_l', lookup_singleton_eq in H
    by (rewrite lookup_singleton_eq; by eexists).
  assert (record_before_tags boardname listname due n i sl su u annots !! "project"
            = Some boardname /\
          record_before_tags boardname listname due n i sl su u annots !! BOARD
            = Some boardname /\
          record_before_tags boardname listname due n i sl su u annots !! LIST
            = Some listname /\
          record_before_tags boardname listname due n i sl su u annots !! "annotations"
            = Some annots) as Hrec.
  { unfold record_before_tags, NAME, CARDID, BOARD, LIST, SHORTLINK, SHORTURL, URL.
    repeat split; by simplify_map_eq. }
  destruct (truthy flag).
  - destruct H as (tags & _ & ->). unfold BOARD, LIST.
    rewrite !lookup_insert_ne by done. apply Hrec.
  - subst tw. apply Hrec.
Qed.

(** * The whole traversal *)

Lemma mapR_app_Ok {A B : Type} (f : A -> result B) l1 l2 ys :
  mapR f (l1 ++ l2) = Ok ys ->
  exists ys1 ys2, mapR f l1 = Ok ys1 /\ mapR f l2 = Ok ys2 /\ ys = ys1 ++ ys2.
Proof.
  revert ys. induction l1 as [|x l1 IH]; intros ys H; simpl in *.
  - by exists [], ys.
  - destruct (f x) as [y|e]; simpl in H; [|done].
    destruct (mapR f (l1 ++ l2)) as [zs|e] eqn:Hz; simpl in H; [|done].
    injection H as <-. destruct (IH zs eq_refl) as (ys1 & ys2 & -> & H2 & ->).
    by exists (y :: ys1), ys2.
Qed.

Lemma mapR_Ok_Forall2 {A B : Type} (f : A -> result B) l ys :
  mapR f l = Ok ys -> Forall2 (fun x y => f x = Ok y) l ys.
Proof.
  revert ys. induction l as [|x l IH]; intros ys H; simpl in H.
  - injection H as <-. constructor.
  - destruct (f x) as [y|e] eqn:Hx; simpl in H; [|done].
    destruct (mapR f l) as [zs|e]; simpl in H; [|done].
    injection H as <-. constructor; [done|by apply IH].
Qed.

Lemma yields_bind c (m : M unit) (k : unit -> M unit) block1 block2 :
  yields c m block1 -> yields c (k tt) block2 -> yields c (m ≫= k) (block1 ++ block2).
Proof.
  intros Hm Hk st Hc. destruct (Hm st Hc) as (st1 & Hrun1 & Hc1 & Hy1).
  destruct (Hk st1 Hc1) as (st2 & Hrun2 & Hc2 & Hy2).
  exists st2. rewrite bind_run, Hrun1, Hrun2. split; [done|]. split; [done|].
  by rewrite Hy2, Hy1, app_assoc.
Qed.

Lemma yields_after {A : Type} c (m : M A) (k : A -> M unit) a block :
  quiet c m a -> yields c (k a) block -> yields c (m ≫= k) block.
Proof.
  intros Hm Hk st Hc. destruct (Hm st Hc) as (st1 & Hrun1 & Hc1 & Hy1).
  destruct (Hk st1 Hc1) as (st2 & Hrun2 & Hc2 & Hy2).
  exists st2. rewrite bind_run, Hrun1, Hrun2. split; [done|]. split; [done|].
  by rewrite Hy2, Hy1.
Qed.

Lemma quiet_after {A B : Type} c (m : M A) (k : A -> M B) a b :
  quiet c m a -> quiet c (k a) b -> quiet c (m ≫= k) b.
Proof.
  intros Hm Hk st Hc. destruct (Hm st Hc) as (st1 & Hrun1 & Hc1 & Hy1).
  destruct (Hk st1 Hc1) as (st2 & Hrun2 & Hc2 & Hy2).
  exists st2. rewrite bind_run, Hrun1, Hrun2. split; [done|]. split; [done|].
  by rewrite Hy2, Hy1.
Qed.

Lemma quiet_lift {A : Type} c (r : result A) a : r = Ok a -> quiet c (lift r) a.
Proof. intros -> st Hc. by exists st. Qed.

Lemma quiet_ret {A : Type} c (a : A) : quiet c (mret a) a.
Proof. intros st Hc. by exists st. Qed.

Lemma quiet_connect c base :
  config !! "base_url" = Some base -> quiet c connect tt.
Proof. intros Hb st Hc. exists st. by rewrite (connect_connected base c st Hb Hc). Qed.

Lemma quiet_rpc c r v : remote c r = Ok v -> quiet c (rpc r) v.
Proof.
  intros Hr st Hc. exists (log_call c r st).
  by rewrite (rpc_connected c r st Hc), Hr.
Qed.

Lemma quiet_annotations c base rec a :
  config !! "base_url" = Some base ->
  annotations_at c rec = Ok a -> quiet c (annotations rec) a.
Proof.
  intros Hb Ha st Hc. exists (annotations rec st).2.
  pose proof (annotations_at_run rec base c st Hb
                (connect_connected_2 base c st Hb Hc)) as H.
  rewrite Ha in H. destruct (annotations_state rec base c st Hb Hc) as [Hc' Hy'].
  destruct (annotations rec st) as [r st']. simpl in *. by subst r.
Qed.

Lemma quiet_get_lists c base board_id lists :
  config !! "base_url" = Some base ->
  lists_at c board_id = Ok lists -> quiet c (get_lists board_id) lists.
Proof.
  intros Hb. unfold lists_at, get_lists. intros H.
  apply (quiet_after c connect _ tt); [by apply (quiet_connect c base)|].
  destruct (remote c (get_columns board_id)) as [v|e] eqn:Hr; [|done].
  apply (quiet_after c _ _ v); [by apply quiet_rpc|]. simpl in H.
  destruct (configured_list "include_lists") as [|i il].
  - apply (quiet_after c _ _ v); [apply quiet_ret|]. simpl in H.
    destruct (configured_list "exclude_lists") as [|e el].
    + injection H as <-. apply quiet_ret.
    + destruct (iter v) as [ls|e'] eqn:Hi; [|done]. simpl in H.
      apply (quiet_after c _ _ ls); [by apply quiet_lift|].
      destruct (filterR _ ls) as [kept|e'] eqn:Hf; [|done]. simpl in H.
      injection H as <-.
      apply (quiet_after c _ _ kept); [by apply quiet_lift|]. apply quiet_ret.
  - destruct (iter v) as [ls|e'] eqn:Hi; [|done]. simpl in H.
    destruct (filterR _ ls) as [kept|e'] eqn:Hf; [|done]. simpl in H.
    apply (quiet_after c _ _ (VList kept)).
    { apply (quiet_after c _ _ ls); [by apply quiet_lift|].
      apply (quiet_after c _ _ kept); [by apply quiet_lift|]. apply quiet_ret. }
    destruct (configured_list "exclude_lists") as [|e el].
    + injection H as <-. apply quiet_ret.
    + simpl in H. destruct (filterR _ kept) as [kept2|e'] eqn:Hf2; [|done].
      simpl in H. injection H as <-.
      apply (quiet_after c _ _ kept); [by apply quiet_lift|].
      apply (quiet_after c _ _ kept2); [by apply quiet_lift|]. apply quiet_ret.
Qed.

Lemma yields_for_list {A : Type} c (f : A -> result (list KanboardIssue))
    (body : A -> unit -> M unit) xs blocks :
  (forall x block, f x = Ok block -> yields c (body x tt) block) ->
  mapR f xs = Ok blocks ->
  yields c (for_list xs body tt) (List.concat blocks).
Proof.
  intros Hbody. revert blocks. induction xs as [|x xs IH]; intros blocks H; simpl in H.
  - injection H as <-. intros st Hc. exists st. simpl. by rewrite app_nil_r.
  - destruct (f x) as [block|e] eqn:Hx; simpl in H; [|done].
    destruct (mapR f xs) as [rest|e]; simpl in H; [|done].
    injection H as <-. simpl.
    apply (yields_bind c (body x tt) (fun b => for_list xs body b));
      [by apply Hbody|by apply IH].
Qed.

Lemma yields_fetch c base r (body : value -> unit -> M unit) items block :
  config !! "base_url" = Some base ->
  remote c r ≫= iter = Ok items ->
  yields c (for_list items body tt) block ->
  yields c (_ ← connect; v ← rpc r; l ← lift (iter v); for_list l body tt) block.
Proof.
  intros Hb Hr Hloop.
  apply (yields_after c connect _ tt); [by apply (quiet_connect c base)|].
  destruct (remote c r) as [v|e] eqn:Hv; [|done]. simpl in Hr.
  apply (yields_after c _ _ v); [by apply quiet_rpc|].
  apply (yields_after c _ _ items); [by apply quiet_lift|]. done.
Qed.

Lemma yields_record c base listextra rec issue :
  config !! "base_url" = Some base ->
  record_with_annotations c listextra rec = Ok issue ->
  yields c (i ← issue_of rec listextra; receive i tt) [issue].
Proof.
  intros Hb. unfold record_with_annotations.
  destruct (annotations_at c rec) as [a|e] eqn:Ha; [|done]. simpl. intros [= <-].
  intros st Hc. rewrite (issue_of_run rec listextra base c st a Hb Hc Ha).
  destruct (annotations_state rec base c st Hb Hc) as [Hc' Hy'].
  eexists. split; [done|]. split; [done|]. simpl. by rewrite Hy'.
Qed.

Lemma yields_records c base listextra recs issues_made :
  config !! "base_url" = Some base ->
  mapR (record_with_annotations c listextra) recs = Ok issues_made ->
  yields c (for_list recs (fun rec b => i ← issue_of rec listextra; receive i b) tt)
    issues_made.
Proof.
  intros Hb H.
  assert (mapR (fun rec => i ← record_with_annotations c listextra rec; Ok [i]) recs
          = Ok ((fun i => [i]) <$> issues_made)) as Hblocks.
  { revert issues_made H. induction recs as [|rec recs IH]; intros made H; simpl in *.
    - by injection H as <-.
    - destruct (record_with_annotations c listextra rec) as [i|e]; simpl in *; [|done].
      destruct (mapR _ recs) as [rest|e]; simpl in H; [|done].
      injection H as <-. by rewrite (IH rest eq_refl). }
  assert (List.concat ((fun i : KanboardIssue => [i]) <$> issues_made) = issues_made) as Hcat.
  { clear. induction issues_made as [|i made IH]; [done|]. csimpl. by rewrite IH. }
  rewrite <- Hcat.
  eapply yields_for_list; [|exact Hblocks].
  intros rec block Hrec. simpl in Hrec.
  destruct (record_with_annotations c listextra rec) as [i|e] eqn:Hi; [|done].
  simpl in Hrec. injection Hrec as <-. by apply (yields_record c base).
Qed.

Lemma yields_card c base listextra card block :
  config !! "base_url" = Some base ->
  card_records c listextra card = Ok block ->
  yields c (consume (issues_card listextra card)) block.
Proof.
  intros Hb. unfold card_records.
  destruct (remote c (get_all_subtasks card) ≫= iter) as [subtasks|e] eqn:Hs; [|done].
  simpl. intros H.
  apply mapR_app_Ok in H as (made & last & Hmade & Hlast & ->).
  simpl in Hlast.
  destruct (record_with_annotations c listextra card) as [i|e] eqn:Hi; [|done].
  simpl in Hlast. injection Hlast as <-.
  unfold consume, issues_card.
  apply (yields_bind c _ (fun b => issue ← issue_of card listextra; receive issue b)).
  - unfold get_subtasks. apply (yields_fetch c base _ _ subtasks); [done|done|].
    by apply (yields_records c base).
  - by apply (yields_record c base).
Qed.

Lemma yields_list c base board lst block :
  config !! "base_url" = Some base ->
  list_records c board lst = Ok block ->
  yields c (issues_list board lst unit receive tt) block.
Proof.
  intros Hb. unfold list_records, issues_list. intros H.
  destruct (getitem board "name") as [boardname|e] eqn:Hbn; [|done].
  destruct (getitem lst "name") as [listname|e] eqn:Hln; [|done].
  destruct (getitem lst "id") as [list_id|e] eqn:Hid; [|done]. simpl in H.
  destruct (remote c (get_all_tasks list_id 1) ≫= iter) as [cards|e] eqn:Hc; [|done].
  simpl in H. destruct (mapR _ cards) as [blocks|e] eqn:Hm; [|done].
  simpl in H. injection H as <-.
  apply (yields_after c _ _ boardname); [by apply quiet_lift|].
  apply (yields_after c _ _ listname); [by apply quiet_lift|].
  apply (yields_after c _ _ list_id); [by apply quiet_lift|].
  unfold get_cards. apply (yields_fetch c base _ _ cards); [done|done|].
  eapply yields_for_list; [|exact Hm].
  intros card block Hcard. by apply (yields_card c base).
Qed.

Lemma yields_board c base board block :
  config !! "base_url" = Some base ->
  board_records c board = Ok block ->
  yields c (issues_board board unit receive tt) block.
Proof.
  intros Hb. unfold board_records, issues_board. intros H.
  destruct (getitem board "id") as [board_id|e] eqn:Hid; [|done]. simpl in H.
  destruct (lists_at c board_id) as [lists|e] eqn:Hl; [|done]. simpl in H.
  destruct (iter lists) as [ls|e] eqn:Hi; [|done]. simpl in H.
  destruct (mapR _ ls) as [blocks|e] eqn:Hm; [|done]. simpl in H.
  injection H as <-.
  apply (yields_after c _ _ board_id); [by apply quiet_lift|].
  apply (yields_after c _ _ lists); [by apply (quiet_get_lists c base)|].
  apply (yields_after c _ _ ls); [by apply quiet_lift|].
  eapply yields_for_list; [|exact Hm].
  intros lst block Hlst. by apply (yields_list c base).
Qed.

(** C2.  Whenever the fetches and lookups of a traversal succeed, [issues]
    yields the records of every board, every list and every card that it
    reaches, block after block and nothing else: the block of a card with N
    subtasks has N+1 issues, those of the subtasks in their order, each
    with the annotations of its own record, and then the one of the card.
    The blocks are added to what was yielded before as they are: a card
    that is reached twice is yielded twice. *)
Theorem issues_yields_all base c st records :
  config !! "base_url" = Some base ->
  KANBOARD_CONNECTION (connect st).2 = Some c ->
  all_records c = Ok records ->
  (consume issues st).1 = Ok tt /\
  yielded (consume issues st).2 = yielded st ++ records /\
  (forall listextra card subtasks block,
     remote c (get_all_subtasks card) = Ok (VList subtasks) ->
     card_records c listextra card = Ok block ->
     List.length block = S (List.length subtasks) /\
     record <$> block = subtasks ++ [card] /\
     Forall (fun issue =>
               exists a,
                 annotations_at c (record issue) = Ok a /\
                 extra issue = <["annotations" := a]> listextra) block).
Proof.
  intros Hb Hc Hall.
  assert (yields c (match config !! "include_boards" with
                    | Some ids =>
                        for_list (aslist ids)
                          (fun boardid acc =>
                             board ← rpc (get_project_by_id (VStr boardid));
                             issues_board board unit receive acc) tt
                    | None =>
                        boards ← rpc get_all_projects;
                        boards ← lift (iter boards);
                        for_list boards
                          (fun board b => issues_board board unit receive b) tt
                    end) records) as Hrest.
  { unfold all_records in Hall. destruct (config !! "include_boards") as [ids|].
    - destruct (mapR _ (aslist ids)) as [blocks|e] eqn:Hm; [|done].
      simpl in Hall. injection Hall as <-.
      eapply yields_for_list; [|exact Hm].
      intros boardid block Hboard. simpl in Hboard.
      destruct (remote c (get_project_by_id (VStr boardid))) as [board|e] eqn:Hr;
        [|done].
      apply (yields_after c _ _ board); [by apply quiet_rpc|].
      by apply (yields_board c base).
    - destruct (remote c get_all_projects ≫= iter) as [boards|e] eqn:Hr; [|done].
      simpl in Hall. destruct (mapR _ boards) as [blocks|e] eqn:Hm; [|done].
      simpl in Hall. injection Hall as <-.
      destruct (remote c get_all_projects) as [v|e] eqn:Hv; [|done]. simpl in Hr.
      apply (yields_after c _ _ v); [by apply quiet_rpc|].
      apply (yields_after c _ _ boards); [by apply quiet_lift|].
      eapply yields_for_list; [|exact Hm].
      intros board block Hboard. by apply (yields_board c base). }
  destruct (Hrest (connect st).2 Hc) as (st' & Hrun & _ & Hy).
  assert (consume issues st = (Ok tt, st')) as Hwhole.
  { unfold consume, issues, get_boards. rewrite bind_run.
    rewrite (connect_run base st Hb) in *. simpl in *. exact Hrun. }
  rewrite Hwhole. split; [done|]. split.
  - simpl. rewrite Hy. by destruct (connect_keeps base st Hb) as [_ ->].
  - intros listextra card subtasks block Hsub. unfold card_records.
    rewrite Hsub. simpl. intros Hblock.
    apply mapR_Ok_Forall2 in Hblock.
    split; [|split].
    + apply Forall2_length in Hblock. rewrite length_app in Hblock. simpl in Hblock. lia.
    + clear Hsub. induction Hblock as [|rec i recs made Hi _ IH]; [done|].
      csimpl. rewrite IH. f_equal. unfold record_with_annotations in Hi.
      destruct (annotations_at c rec); [|done]. simpl in Hi. by injection Hi as <-.
    + clear Hsub. induction Hblock as [|rec i recs made Hi _ IH]; constructor; [|done].
      unfold record_with_annotations in Hi.
      destruct (annotations_at c rec) as [a|] eqn:Ha; [|done]. simpl in Hi.
      injection Hi as <-. exists a. split; [done|]. simpl.
      by rewrite insert_union_singleton_l.
Qed.

(** * The base URL and the scheme *)

Lemma prefixed_differs (s : string) : s <> ("https://" ++ s)%string.
Proof.
  intros H. apply (f_equal String.length) in H.
  change (String.length s = 8 + String.length s)%nat in H. lia.
Qed.

(** C9.  [connect] looks for the text [http] at the start of the base URL
    and not for a scheme.  A configured base URL that has no scheme and
    starts with [http], as a host name may, is not prefixed with
    [https://]: the first [connect] of a run makes the client for the base
    URL as it stands, a URL without a scheme, and the normalization by
    scheme does not hold. *)
Theorem connect_misses_scheme base st :
  config !! "base_url" = Some base ->
  startswith base "http" = true ->
  has_scheme base = false ->
  KANBOARD_CONNECTION st = None ->
  connect st = (Ok tt, set_connection (client_for base) st) /\
  client_url (client_for base) = base /\
  has_scheme (client_url (client_for base)) = false /\
  ~ connects_by_scheme.
Proof.
  intros Hb Hhttp Hscheme Hnone.
  assert (client_url (client_for base) = base) as Hurl.
  { unfold client_for. by rewrite Hhttp. }
  split; [|split; [done|split]].
  - rewrite (connect_run base st Hb). by rewrite Hnone.
  - by rewrite Hurl.
  - intros Hnorm. specialize (Hnorm base Hb).
    rewrite (connect_run base initial Hb) in Hnorm. simpl in Hnorm.
    rewrite Hscheme, Hhttp in Hnorm. injection Hnorm as Hnorm.
    by apply (prefixed_differs base).
Qed.

(** * The cards of a list *)

Lemma tasks_of_project_spec tasks project_id status_id task :
  task ∈ tasks_of_project tasks project_id status_id <->
  task ∈ tasks /\
  int_field "project_id" task = Some project_id /\
  int_field "is_active" task = Some status_id.
Proof.
  unfold tasks_of_project. rewrite !list_elem_of_In, filter_In, andb_true_iff.
  by rewrite !bool_decide_eq_true.
Qed.

(** C8.  [get_cards] sends the id of the list as the [project_id] of
    [get_all_tasks].  On a server that answers [get_all_tasks] as the API
    documents it, with the tasks of the project of that id that have the
    given status, the cards that [get_cards] yields for a list are the
    active tasks of the project whose id is the id of the list, in the
    order of the server, whatever column they are in; an active task of
    the list itself is not among them unless its project has that id
    too. *)
Theorem get_cards_reads_list_as_project tasks list_id base c st :
  config !! "base_url" = Some base ->
  KANBOARD_CONNECTION (connect st).2 = Some c ->
  (forall project_id status_id,
     remote c (get_all_tasks (VInt project_id) status_id)
     = Ok (VList (tasks_of_project tasks project_id status_id))) ->
  (collect (get_cards (VInt list_id)) st).1 = Ok (tasks_of_project tasks list_id 1) /\
  calls (collect (get_cards (VInt list_id)) st).2
  = calls st ++ [(c, get_all_tasks (VInt list_id) 1)] /\
  (forall card,
     card ∈ tasks_of_project tasks list_id 1 ->
     int_field "project_id" card = Some list_id /\
     int_field "is_active" card = Some 1%Z) /\
  (forall task,
     task ∈ tasks ->
     int_field "column_id" task = Some list_id ->
     int_field "project_id" task <> Some list_id ->
     task ∉ tasks_of_project tasks list_id 1).
Proof.
  intros Hb Hc Hserver.
  assert (collect (get_cards (VInt list_id)) st
          = (Ok (tasks_of_project tasks list_id 1),
             log_call c (get_all_tasks (VInt list_id) 1) (connect st).2)) as Hrun.
  { unfold collect, get_cards. rewrite (fetch_run _ _ _ base c st Hb Hc).
    rewrite Hserver. simpl. by rewrite for_list_collect. }
  rewrite Hrun. split; [done|]. split; [|split].
  - simpl. by destruct (connect_keeps base st Hb) as [-> _].
  - intros card Hcard. by apply tasks_of_project_spec in Hcard as (_ & ? & ?).
  - intros task _ _ Hother Hin. by apply tasks_of_project_spec in Hin as (_ & ? & _).
Qed.

End Kanboard.

(** * The statements on the sample data *)

Lemma to_taskwarrior_mapping_witness :
  exists tw,
    to_taskwarrior sample_py_str sample_parse_datetime sample_Template
      sample_issue = Ok tw /\
    mapped_fields sample_parse_datetime sample_issue
      (VStr "Proj") (VStr "Doing") VNone (VStr "Fix bug") (VInt 100) (VStr "ab12")
      (VStr "https://k/ab12") (VStr "https://k/t/100") tw /\
    (is_Some (tw !! "tags") <-> truthy (VBool true) = true).
Proof.
  edestruct (to_taskwarrior_mapping sample_py_str sample_parse_datetime
               sample_Template sample_issue
               (VStr "Proj") (VStr "Doing") VNone (VStr "Fix bug") (VInt 100)
               (VStr "ab12") (VStr "https://k/ab12") (VStr "https://k/t/100")
               (VBool true)) as (_ & H & _); [reflexivity..|].
  eexists. split; [reflexivity|]. apply H. reflexivity.
Defined.

Lemma issues_card_yields_witness :
  let run := consume (issues_card sample_config sample_asbool sample_remote
                        sample_format sample_listextra sample_card) initial in
  run.1 = Ok tt /\
  record <$> yielded run.2 = [sample_subtask; sample_card] /\
  (fun issue => extra issue !! "annotations") <$> yielded run.2 =
    [Some (VList []); Some (VList [VStr "@alice - ok (https://k/ab12)"])].
Proof.
  edestruct (issues_card_yields sample_config sample_asbool sample_remote
               sample_format sample_listextra sample_card "k"
               sample_client initial [sample_subtask]
               [VList []; VList [VStr "@alice - ok (https://k/ab12)"]])
    as (H1 & H2 & _); [reflexivity| reflexivity| reflexivity| |].
  - repeat constructor.
  - split; [exact H1|]. rewrite H2. split; reflexivity.
Defined.

Lemma get_lists_filtered_witness :
  get_lists sample_config sample_aslist sample_remote (VInt 1) initial =
    (Ok (VList [sample_list 10 "Doing"]),
     log_call sample_client (get_columns (VInt 1))
       (set_connection sample_client initial)).
Proof.
  edestruct (get_lists_filtered sample_config sample_aslist sample_remote (VInt 1) "k"
               sample_client initial
               [sample_list 9 "Backlog"; sample_list 10 "Doing"; sample_list 11 "Done"])
    as (H & _); [reflexivity| reflexivity| reflexivity| |].
  - repeat constructor; eexists; reflexivity.
  - rewrite H. reflexivity.
Defined.

Lemma token_not_validated_witness :
  validate_config sample_validate sample_config_without_token
    "my_kanboard" = Ok tt /\
  exists later,
    calls (consume (issues sample_config_without_token sample_aslist sample_asbool
                      sample_remote sample_format) initial).2
    = (Client "https://kanboard.example.org" "jsonrpc" None, get_all_projects) :: later.
Proof.
  edestruct (token_not_validated sample_config_without_token sample_aslist
               sample_asbool sample_remote sample_format
               sample_validate "kanboard.example.org" "secret"
               "my_kanboard") as (H1 & _ & H2); [reflexivity..|].
  split; [exact H1|exact H2].
Defined.


Lemma annotations_per_comment_witness :
  (annotations sample_config sample_remote sample_format sample_card
     initial).1 = Ok (VList [VStr "@alice - ok (https://k/ab12)"]).
Proof.
  edestruct (annotations_per_comment sample_config sample_remote
               sample_format sample_card "k" sample_client initial
               (VInt 100) (VStr "https://k/ab12") [sample_comment]
               [(VStr "alice", VStr "ok")]) as (H & _);
    [reflexivity| reflexivity| reflexivity| reflexivity| reflexivity| |].
  - repeat constructor.
  - rewrite H. reflexivity.
Defined.

Lemma get_tags_per_label_witness :
  get_tags sample_py_str sample_Template sample_issue ∅ = Ok [VStr "In_Progress"].
Proof.
  edestruct (get_tags_per_label sample_py_str sample_Template sample_issue ∅
               (fun context =>
                  Ok (render_nodes sample_py_str [JOutput "label" [FReplace " " "_"]]
                        context))
               [sample_dict [("name", VStr "In Progress")]] [VStr "In Progress"])
    as (_ & _ & H); [reflexivity| reflexivity| |].
  - repeat constructor.
  - apply H; reflexivity.
Defined.

Lemma get_cards_active_only_witness :
  collect (get_cards sample_config sample_remote (VInt 10)) initial =
    (Ok [sample_card],
     log_call sample_client (get_all_tasks (VInt 10) 1)
       (set_connection sample_client initial)).
Proof.
  edestruct (get_cards_active_only sample_config sample_remote (VInt 10) "k"
               sample_client initial) as (H & _); [reflexivity| reflexivity|].
  rewrite H. reflexivity.
Defined.

Lemma connect_once_witness :
  let st' := (consume (issues sample_config sample_aslist sample_asbool sample_remote
                         sample_format) initial).2 in
  KANBOARD_CONNECTION st' = Some sample_client /\
  Forall (fun p => p.1 = sample_client) (calls st').
Proof.
  edestruct (connect_once sample_config sample_aslist sample_asbool sample_remote
               sample_format "k") as (_ & _ & _ & _ & H); [reflexivity|].
  exact H.
Defined.

Lemma subtasks_requested_by_record_witness :
  exists later,
    calls (consume (issues_card sample_config sample_asbool sample_remote
                      sample_format sample_listextra sample_card) initial).2
    = [] ++ (sample_client, get_all_subtasks sample_card) :: later.
Proof.
  edestruct (subtasks_requested_by_record sample_config sample_asbool sample_remote
               sample_format sample_listextra sample_card "k"
               sample_client initial) as (_ & H & _); [reflexivity| reflexivity|].
  exact H.
Defined.

(** ** Runs of the whole traversal on the sample data *)

(** One board, one list that passes the filters, one card with a subtask:
    two issues, the subtask first, after six requests. *)
Example run_sample :
  let run := consume (issues sample_config sample_aslist sample_asbool sample_remote
                        sample_format) initial in
  run.1 = Ok tt /\
  record <$> yielded run.2 = [sample_subtask; sample_card] /\
  calls run.2 =
    [(sample_client, get_all_projects);
     (sample_client, get_columns (VInt 1));
     (sample_client, get_all_tasks (VInt 10) 1);
     (sample_client, get_all_subtasks sample_card);
     (sample_client, get_all_comments (VInt 101));
     (sample_client, get_all_comments (VInt 100))].
Proof. vm_compute. repeat split. Qed.

(** The record of that card. *)
Example record_sample :
  (fun tw => (tw !! "project", tw !! "due", tw !! CARDID, tw !! LIST, tw !! "tags",
              tw !! "annotations"))
    <$> to_taskwarrior sample_py_str sample_parse_datetime sample_Template sample_issue
  = Ok (Some (VStr "Proj"), Some VNone, Some (VInt 100), Some (VStr "Doing"),
        Some (VList [VStr "In_Progress"]),
        Some (VList [VStr "@alice - ok (https://k/ab12)"])).
Proof. vm_compute. reflexivity. Qed.

(** A board that is configured twice is traversed twice, and its issues
    are yielded twice. *)
Example run_twice :
  let run := consume (issues (<["include_boards" := "1,1"]> sample_config) sample_aslist
                        sample_asbool sample_remote sample_format) initial in
  run.1 = Ok tt /\
  record <$> yielded run.2 = [sample_subtask; sample_card; sample_subtask; sample_card].
Proof. vm_compute. repeat split. Qed.

(** The traversal of the board [Proj] and then of [Ops], whose column has
    no name: the issues of [Proj] and then the exception. *)
Example run_column_without_name :
  let run := consume (issues (<["include_boards" := "1,2"]> sample_config) sample_aslist
                        sample_asbool sample_remote sample_format) initial in
  run.1 = Err (KeyError "name") /\
  record <$> yielded run.2 = [sample_subtask; sample_card].
Proof. vm_compute. repeat split. Qed.

(** Without a base URL the traversal stops in [connect]. *)
Example run_without_base_url :
  consume (issues (delete "base_url" sample_config) sample_aslist sample_asbool
             sample_remote sample_format) initial
  = (Err AttributeError, initial).
Proof. vm_compute. reflexivity. Qed.

(** A URL with another scheme gets the prefix as well. *)
Example connect_other_scheme :
  client_url <$> KANBOARD_CONNECTION
                   (connect (<["base_url" := "ftp://files.example.org"]> ∅) initial).2
  = Some "https://ftp://files.example.org".
Proof. vm_compute. reflexivity. Qed.

(** * The further properties on the sample data *)

Lemma to_taskwarrior_needs_fields_witness :
  exists d,
    record sample_issue = VDict d /\
    Forall (fun key => is_Some (d !! key))
      ["due"; "name"; "id"; "shortLink"; "shortUrl"; "url"] /\
    is_Some (extra sample_issue !! "boardname") /\
    is_Some (extra sample_issue !! "listname") /\
    is_Some (origin sample_issue !! "import_labels_as_tags").
Proof.
  eapply (to_taskwarrior_needs_fields sample_py_str sample_parse_datetime
            sample_Template sample_issue).
  reflexivity.
Defined.

Lemma to_taskwarrior_keys_witness :
  exists tw,
    to_taskwarrior sample_py_str sample_parse_datetime sample_Template sample_issue
    = Ok tw /\
    dom tw = dom UDAS ∪ standard_keys ∪ {["tags"]}.
Proof.
  eexists. split; [reflexivity|].
  apply (to_taskwarrior_keys sample_py_str sample_parse_datetime sample_Template
           sample_issue _ (VBool true)); reflexivity.
Defined.

Lemma tags_follow_option_witness :
  exists tw,
    to_taskwarrior sample_py_str sample_parse_datetime sample_Template
      (update_extra (get_issue_for_record sample_config sample_asbool sample_card
                       sample_listextra) {["annotations" := VList []]}) = Ok tw /\
    (is_Some (tw !! "tags") <->
     exists text, sample_config !! "import_labels_as_tags" = Some text /\
                  sample_asbool text = true).
Proof.
  eexists. split; [reflexivity|].
  apply (tags_follow_option sample_py_str sample_parse_datetime sample_Template
           sample_config sample_asbool sample_card sample_listextra
           {["annotations" := VList []]}).
  reflexivity.
Defined.

Lemma rejected_template_witness :
  to_taskwarrior sample_py_str sample_parse_datetime sample_Template
    sample_issue_bad_template
  = Err (TemplateError "not in the interpreted part").
Proof.
  apply (rejected_template sample_py_str sample_parse_datetime sample_Template
           sample_issue_bad_template (VStr "Proj") (VStr "Doing") VNone
           (VStr "Fix bug") (VInt 100) (VStr "ab12") (VStr "https://k/ab12")
           (VStr "https://k/t/100") (VBool true)
           (TemplateError "not in the interpreted part")); reflexivity.
Defined.

Lemma description_agrees_with_record_witness :
  exists title url number,
    getitem (record sample_issue) "name" = Ok title /\
    getitem (record sample_issue) "shortUrl" = Ok url /\
    getitem (record sample_issue) "idShort" = Ok number /\
    sample_description (VStr "Fix bug") (VStr "https://k/ab12") (VInt 5) "task"
    = sample_description title url number "task" /\
    forall tw,
      to_taskwarrior sample_py_str sample_parse_datetime sample_Template sample_issue
      = Ok tw ->
      tw !! NAME = Some title /\ tw !! SHORTURL = Some url.
Proof.
  apply (description_agrees_with_record sample_py_str sample_parse_datetime
           sample_Template sample_description sample_issue).
  reflexivity.
Defined.

Lemma default_tags_no_space_witness :
  exists tags,
    get_tags sample_py_str sample_Template sample_issue ∅ = Ok (VStr <$> tags) /\
    Forall2 (fun text tag =>
               no_space tag = true /\
               String.length tag = String.length text /\
               (no_space text = true -> tag = text)) ["In Progress"] tags.
Proof.
  apply (default_tags_no_space sample_py_str sample_Template sample_issue ∅
           [sample_dict [("name", VStr "In Progress")]] ["In Progress"]);
    [reflexivity|reflexivity|].
  repeat constructor.
Defined.

Lemma validate_config_passes_witness :
  validate_config sample_validate sample_config_without_token "my_kanboard" = Ok tt /\
  validate_config sample_validate (delete "api_key" sample_config) "my_kanboard"
  = Err (SystemExit "[my_kanboard] has no 'kanboard.api_key'").
Proof.
  destruct (validate_config_passes sample_validate sample_config_without_token
              "my_kanboard") as ([_ H1] & _).
  destruct (validate_config_passes sample_validate (delete "api_key" sample_config)
              "my_kanboard") as (_ & _ & H2).
  split.
  - apply H1. split; [reflexivity|]. eexists. reflexivity.
  - apply H2; reflexivity.
Defined.

Lemma get_boards_configured_witness :
  collect (get_boards (<["include_boards" := "1,3,2"]> sample_config) sample_aslist
             sample_remote) initial
  = (Err (RemoteError "not found"),
     State (Some sample_client)
       [(sample_client, get_project_by_id (VStr "1"));
        (sample_client, get_project_by_id (VStr "3"))] []).
Proof.
  edestruct (get_boards_configured (<["include_boards" := "1,3,2"]> sample_config)
               sample_aslist sample_remote "1,3,2" "k" sample_client initial)
    as (Hrun & _ & Hstop); [reflexivity| reflexivity| reflexivity|].
  destruct (Hstop ["1"] "3" ["2"] [sample_board] (RemoteError "not found"))
    as [Herr Hasked]; [reflexivity| reflexivity| reflexivity|].
  rewrite Hrun, Herr, Hasked. reflexivity.
Defined.

Lemma get_boards_all_witness :
  collect (get_boards sample_config sample_aslist sample_remote) initial
  = (Ok [sample_board],
     log_call sample_client get_all_projects (set_connection sample_client initial)).
Proof.
  apply (get_boards_all sample_config sample_aslist sample_remote "k" sample_client
           initial); reflexivity.
Defined.

Lemma issues_stops_at_failing_board_witness :
  consume (issues sample_config_boards sample_aslist sample_asbool sample_remote
             sample_format) initial
  = (Err (KeyError "name"),
     log_call sample_client (get_columns (VInt 2))
       (log_call sample_client (get_project_by_id (VStr "2"))
          (set_connection sample_client initial))).
Proof.
  apply (issues_stops_at_failing_board sample_config_boards sample_aslist
           sample_asbool sample_remote sample_format "2,1" [] "2" ["1"] "k" initial
           (set_connection sample_client initial)); reflexivity.
Defined.

Lemma fetch_in_remote_order_witness :
  collect (get_comments sample_config sample_remote (VInt 100)) initial
  = (Ok [sample_comment],
     log_call sample_client (get_all_comments (VInt 100))
       (set_connection sample_client initial)) /\
  collect (get_subtasks sample_config sample_remote (VInt 100)) initial
  = (Err (RemoteError "not found"),
     log_call sample_client (get_all_subtasks (VInt 100))
       (set_connection sample_client initial)).
Proof.
  apply (fetch_in_remote_order sample_config sample_remote (VInt 100) "k"
           sample_client initial); reflexivity.
Defined.

Lemma fetch_without_base_url_witness :
  get_lists sample_config_no_url sample_aslist sample_remote (VInt 1)
    (set_connection sample_client initial)
  = (Err AttributeError, set_connection sample_client initial).
Proof.
  destruct (fetch_without_base_url sample_config_no_url sample_aslist sample_remote
              (set_connection sample_client initial)) as (_ & H & _);
    [reflexivity|exact (H (VInt 1))].
Defined.

Lemma get_lists_unfiltered_witness :
  get_lists sample_config_plain sample_aslist sample_remote_broken (VInt 5) initial
  = (Ok (VBool false),
     log_call sample_client (get_columns (VInt 5))
       (set_connection sample_client initial)).
Proof.
  apply (get_lists_unfiltered sample_config_plain sample_aslist sample_remote_broken
           (VInt 5) "k" sample_client initial); reflexivity.
Defined.

Lemma get_lists_missing_title_witness :
  get_lists sample_config sample_aslist sample_remote_broken (VInt 3) initial
  = (Err (KeyError "title"),
     log_call sample_client (get_columns (VInt 3))
       (set_connection sample_client initial)).
Proof.
  apply (get_lists_missing_title sample_config sample_aslist sample_remote_broken
           (VInt 3) "k" sample_client initial [sample_list 10 "Doing"]
           sample_untitled [sample_list 11 "Done"]);
    [reflexivity|reflexivity|reflexivity| |reflexivity|].
  - repeat constructor. eexists. reflexivity.
  - left. discriminate.
Defined.

Lemma title_not_text_witness :
  exists kept,
    get_lists sample_config_five sample_aslist sample_remote_broken (VInt 4) initial
    = (Ok (VList kept),
       log_call sample_client (get_columns (VInt 4))
         (set_connection sample_client initial)) /\
    (sample_dict [("id", VInt 12); ("title", VInt 5); ("name", VStr "5")] ∈ kept <->
     configured_list sample_config_five sample_aslist "include_lists" = []).
Proof.
  apply (title_not_text sample_config_five sample_aslist sample_remote_broken
           (VInt 4) "k" sample_client initial
           [sample_dict [("id", VInt 12); ("title", VInt 5); ("name", VStr "5")]]
           (sample_dict [("id", VInt 12); ("title", VInt 5); ("name", VStr "5")])
           (VInt 5));
    [reflexivity|reflexivity|reflexivity| | |reflexivity|].
  - repeat constructor. eexists. reflexivity.
  - constructor.
  - intros text H. discriminate H.
Defined.

Lemma board_without_lists_witness :
  consume (issues_board sample_config_five sample_aslist sample_asbool sample_remote
             sample_format sample_board) initial
  = (Ok tt,
     log_call sample_client (get_columns (VInt 1))
       (set_connection sample_client initial)).
Proof.
  apply (board_without_lists sample_config_five sample_aslist sample_asbool
           sample_remote sample_format sample_board (VInt 1) "k" sample_client initial
           [sample_list 9 "Backlog"; sample_list 10 "Doing"; sample_list 11 "Done"]);
    [reflexivity|reflexivity|reflexivity|reflexivity| |reflexivity].
  repeat constructor; eexists; reflexivity.
Defined.

Lemma annotations_missing_key_witness :
  annotations sample_config sample_remote sample_format (VDict sample_task) initial
  = (Err (KeyError "shortUrl"), initial).
Proof.
  apply (annotations_missing_key sample_config sample_remote sample_format
           sample_task initial).
  reflexivity.
Defined.

Lemma annotations_bad_comment_witness :
  annotations sample_config sample_remote_broken sample_format sample_card initial
  = (Err (KeyError "memberCreator"),
     log_call sample_client (get_all_comments (VInt 100))
       (set_connection sample_client initial)).
Proof.
  apply (annotations_bad_comment sample_config sample_remote_broken sample_format
           sample_card "k" sample_client initial (VInt 100) (VStr "https://k/ab12")
           [sample_comment] sample_broken_comment []);
    [reflexivity|reflexivity|reflexivity|reflexivity|reflexivity| |reflexivity].
  repeat constructor. eexists. reflexivity.
Defined.

Lemma issues_card_stops_at_subtask_witness :
  let run := consume (issues_card sample_config sample_asbool sample_remote_broken
                        sample_format sample_listextra sample_card) initial in
  run.1 = Err (KeyError "shortUrl") /\
  record <$> yielded run.2 = [sample_subtask].
Proof.
  destruct (issues_card_stops_at_subtask sample_config sample_asbool
              sample_remote_broken sample_format sample_listextra sample_card "k"
              sample_client initial [sample_subtask] (VDict sample_task)
              [sample_subtask] [VList []] (KeyError "shortUrl"))
    as [H1 H2]; [reflexivity|reflexivity|reflexivity| |reflexivity|].
  - repeat constructor.
  - split; [exact H1|]. simpl. rewrite H2. reflexivity.
Defined.

Lemma issues_card_requests_witness :
  calls (consume (issues_card sample_config sample_asbool sample_remote sample_format
                    sample_listextra sample_card) initial).2
  = [(sample_client, get_all_subtasks sample_card);
     (sample_client, get_all_comments (VInt 101));
     (sample_client, get_all_comments (VInt 100))].
Proof.
  destruct (issues_card_requests sample_config sample_asbool sample_remote
              sample_format sample_listextra sample_card "k" sample_client initial
              [sample_subtask] [VList []; VList [VStr "@alice - ok (https://k/ab12)"]]
              [VInt 101; VInt 100]) as [H _];
    [reflexivity|reflexivity|reflexivity| | |].
  - repeat constructor.
  - repeat constructor.
  - rewrite H. reflexivity.
Defined.

Lemma yielded_issue_record_witness :
  exists tw,
    to_taskwarrior sample_py_str sample_parse_datetime sample_Template
      (update_extra
         (get_issue_for_record sample_config sample_asbool sample_card
            (<["listname" := VStr "Doing"]> (<["boardname" := VStr "Proj"]> ∅)))
         {["annotations" := VList [VStr "note"]]}) = Ok tw /\
    tw !! "project" = Some (VStr "Proj") /\
    tw !! BOARD = Some (VStr "Proj") /\
    tw !! LIST = Some (VStr "Doing") /\
    tw !! "annotations" = Some (VList [VStr "note"]).
Proof.
  eexists. split; [reflexivity|].
  apply (yielded_issue_record sample_py_str sample_parse_datetime sample_Template
           sample_config sample_asbool sample_card).
  reflexivity.
Defined.

(** * The whole traversal on the sample data *)

(** The board 1 configured twice: its card and the subtask of the card are
    yielded twice. *)
Lemma issues_yields_all_witness :
  let run := consume (issues (<["include_boards" := "1,1"]> sample_config) sample_aslist
                        sample_asbool sample_remote sample_format) initial in
  run.1 = Ok tt /\
  record <$> yielded run.2 = [sample_subtask; sample_card; sample_subtask; sample_card] /\
  (fun issue => extra issue !! "annotations") <$> yielded run.2 =
    [Some (VList []); Some (VList [VStr "@alice - ok (https://k/ab12)"]);
     Some (VList []); Some (VList [VStr "@alice - ok (https://k/ab12)"])].
Proof.
  edestruct (issues_yields_all (<["include_boards" := "1,1"]> sample_config)
               sample_aslist sample_asbool sample_remote sample_format "k"
               sample_client initial)
    as (H1 & H2 & _); [reflexivity| reflexivity| vm_compute; reflexivity|].
  split; [exact H1|]. rewrite H2. split; reflexivity.
Defined.

(** The host name [httpd.example.org] has no scheme and starts with
    [http]: the client is made for it as it stands. *)
Lemma connect_misses_scheme_witness :
  connect sample_config_httpd initial
  = (Ok tt, set_connection (Client "httpd.example.org" "jsonrpc" None) initial) /\
  has_scheme "httpd.example.org" = false /\
  ~ connects_by_scheme sample_config_httpd.
Proof.
  edestruct (connect_misses_scheme sample_config_httpd "httpd.example.org" initial)
    as (H1 & _ & H3 & H4); [reflexivity| reflexivity| reflexivity| reflexivity|].
  split; [exact H1|]. split; [exact H3|exact H4].
Defined.

(** The list 10 of project 1 holds the active task 100; project 10 holds
    the task 200 in its column 77.  [get_cards] of the list 10 yields the
    task 200 and not the task 100. *)
Lemma get_cards_reads_list_as_project_witness :
  (collect (get_cards sample_config (documented_server sample_api_tasks) (VInt 10))
     initial).1
  = Ok [sample_api_task 200 10 77 1] /\
  int_field "column_id" (sample_api_task 100 1 10 1) = Some 10%Z /\
  int_field "column_id" (sample_api_task 200 10 77 1) = Some 77%Z.
Proof.
  edestruct (get_cards_reads_list_as_project sample_config
               (documented_server sample_api_tasks) sample_api_tasks 10 "k"
               sample_client initial)
    as (H & _); [reflexivity| reflexivity| reflexivity|].
  split; [exact H|]. split; reflexivity.
Defined.
